(** * Everything Search wrapper (pakkio/es): argument builder, result parser
      and tool adapters, embedded from [everything_search.py] and
      [mcp_server.py]. *)

From Stdlib Require Import ZArith List String Ascii Bool Lia DecimalString.
Import ListNotations.

Open Scope string_scope.
Open Scope Z_scope.

(** ** Python primitives used by the wrapper *)

(** A Python [str] is modelled as a [string] whose characters are the code
    points 0..255; the predicates below follow the Unicode tables on that
    range. *)
Module Py.

Definition code (c : ascii) : N := N_of_ascii c.

Definition in_range (lo hi : N) (c : ascii) : bool :=
  ((lo <=? code c) && (code c <=? hi))%N.

(** [str.isspace] on one character: TAB..CR, FS..US, SPACE, NEL, NBSP. *)
Definition isspace (c : ascii) : bool :=
  in_range 9 13 c || in_range 28 32 c || in_range 133 133 c
  || in_range 160 160 c.

(** Characters of Unicode category Nd (decimal digits). *)
Definition isdecimal_char (c : ascii) : bool := in_range 48 57 c.

(** Characters with Numeric_Type Digit or Decimal: the decimal digits and
    the superscripts two, three and one. *)
Definition isdigit_char (c : ascii) : bool :=
  isdecimal_char c || in_range 178 179 c || in_range 185 185 c.

Fixpoint all_chars (p : ascii -> bool) (s : string) : bool :=
  match s with
  | EmptyString => true
  | String c r => p c && all_chars p r
  end.

Definition is_empty (s : string) : bool :=
  match s with EmptyString => true | String _ _ => false end.

(** Truth value of a string: empty is false. *)
Definition truthy (s : string) : bool := negb (is_empty s).

(** [str.isdigit]: non-empty and every character is a digit. *)
Definition isdigit (s : string) : bool :=
  negb (is_empty s) && all_chars isdigit_char s.

(** Non-empty and every character is one of 0..9. *)
Definition isdecimal (s : string) : bool :=
  negb (is_empty s) && all_chars isdecimal_char s.

Fixpoint lstrip (s : string) : string :=
  match s with
  | EmptyString => EmptyString
  | String c r => if isspace c then lstrip r else s
  end.

Fixpoint rstrip (s : string) : string :=
  match s with
  | EmptyString => EmptyString
  | String c r =>
      match rstrip r with
      | EmptyString => if isspace c then EmptyString else String c EmptyString
      | r' => String c r'
      end
  end.

(** [str.strip()] with no argument. *)
Definition strip (s : string) : string := rstrip (lstrip s).

(** [str.split(sep)] for a one-character separator: every occurrence
    splits, and the result is never the empty list. *)
Fixpoint split (sep : ascii) (s : string) : list string :=
  match s with
  | EmptyString => [EmptyString]
  | String c r =>
      if Ascii.eqb c sep then EmptyString :: split sep r
      else match split sep r with
           | h :: t => String c h :: t
           | [] => [String c EmptyString]
           end
  end.

Definition LF : ascii := ascii_of_N 10.
Definition CR : ascii := ascii_of_N 13.
Definition nl : string := String LF EmptyString.

(** [str(n)] for an [int]. *)
Definition str_int (n : Z) : string := NilZero.string_of_int (Z.to_int n).

Definition digit_val (c : ascii) : Z := Z.of_N (code c) - 48.

(** Digits of an [int()] literal in base 10: single underscores are allowed
    between digits only. [prev] tells whether the previous character was a
    digit. *)
Fixpoint int_digits (acc : Z) (prev : bool) (s : string) : option Z :=
  match s with
  | EmptyString => if prev then Some acc else None
  | String c r =>
      if isdecimal_char c then int_digits (10 * acc + digit_val c) true r
      else if Ascii.eqb c "_" && prev then int_digits acc false r
      else None
  end.

(** Blanks that [int()] skips around the literal. *)
Definition int_blank (c : ascii) : bool :=
  in_range 9 13 c || in_range 32 32 c || in_range 133 133 c
  || in_range 160 160 c.

Fixpoint skip_blank (s : string) : string :=
  match s with
  | EmptyString => EmptyString
  | String c r => if int_blank c then skip_blank r else s
  end.

Fixpoint drop_blank_end (s : string) : string :=
  match s with
  | EmptyString => EmptyString
  | String c r =>
      match drop_blank_end r with
      | EmptyString => if int_blank c then EmptyString else String c EmptyString
      | r' => String c r'
      end
  end.

(** [int(s)] for a [str] argument, base 10; [None] stands for the
    [ValueError] of an invalid literal. The interpreter's configurable cap
    on the number of digits is not part of the model. *)
Definition int (s : string) : option Z :=
  match drop_blank_end (skip_blank s) with
  | String "+" r => int_digits 0 false r
  | String "-" r => option_map Z.opp (int_digits 0 false r)
  | t => int_digits 0 false t
  end.

(** Exception classes that occur in the program; all derive from
    [Exception]. *)
Inductive exn_class : Type :=
| FileNotFoundError
| PermissionError
| OSError
| UnicodeDecodeError
| RuntimeError
| TimeoutError
| TimeoutExpired
| AttributeError
| ValueError
| TypeError
| CsvError.

(** An exception instance: its class and [str(e)]. *)
Record exn : Type := Exn { exn_cls : exn_class; exn_str : string }.

Definition is_class (c : exn_class) (e : exn) : bool :=
  match c, exn_cls e with
  | FileNotFoundError, FileNotFoundError
  | PermissionError, PermissionError
  | OSError, OSError
  | UnicodeDecodeError, UnicodeDecodeError
  | RuntimeError, RuntimeError
  | TimeoutError, TimeoutError
  | TimeoutExpired, TimeoutExpired
  | AttributeError, AttributeError
  | ValueError, ValueError
  | TypeError, TypeError
  | CsvError, CsvError => true
  | _, _ => false
  end.

(** Outcome of running a block: a value, or a raised exception. *)
Inductive result (A : Type) : Type :=
| Ok (a : A)
| Raise (e : exn).
Arguments Ok {A} a.
Arguments Raise {A} e.

Definition bind {A B} (m : result A) (k : A -> result B) : result B :=
  match m with
  | Ok a => k a
  | Raise e => Raise e
  end.

(** [try: body except ...: handler]; the handler sees every exception of
    the body, and what the handler raises is not caught again. *)
Definition try_except {A} (body : result A) (handler : exn -> result A)
  : result A :=
  match body with
  | Ok a => Ok a
  | Raise e => handler e
  end.

End Py.

Notation "x <- m ;; k" := (Py.bind m (fun x => k))
  (at level 61, m at next level, right associativity).

Import Py.

(** ** The host: file system and external process *)

Module Subprocess.

(** Why starting the process or decoding its output failed. *)
Inductive launch_error : Type :=
| NoSuchFile
| NotPermitted
| OtherOSError
| DecodeError.

Definition launch_class (l : launch_error) : exn_class :=
  match l with
  | NoSuchFile => FileNotFoundError
  | NotPermitted => PermissionError
  | OtherOSError => OSError
  | DecodeError => UnicodeDecodeError
  end.

(** What the external executable does for one argument vector: it runs for
    [elapsed_ms] and exits with a code and its two captured streams, or it
    cannot be run at all. *)
Inductive behaviour : Type :=
| Exits (elapsed_ms : Z) (code : Z) (out err : string)
| Fails (l : launch_error) (msg : string).

Record World : Type := {
  path_exists : string -> bool;
  process : list string -> behaviour
}.

Record CompletedProcess : Type := {
  returncode : Z;
  stdout : string;
  stderr : string
}.

(** [subprocess.run(cmd, capture_output=True, text=True, timeout=...)].
    [timeout] is the keyword argument in seconds, [None] when the call does
    not pass it: the call then waits for the process however long it
    runs. The text of the expiry message is abbreviated. *)
Definition run (w : World) (cmd : list string) (timeout : option Z)
  : result CompletedProcess :=
  match process w cmd with
  | Fails l msg => Raise (Exn (launch_class l) msg)
  | Exits elapsed code out err =>
      match timeout with
      | Some secs =>
          if 1000 * secs <? elapsed
          then Raise (Exn TimeoutExpired
                        ("Command timed out after " ++ str_int secs ++ " seconds"))
          else Ok {| returncode := code; stdout := out; stderr := err |}
      | None => Ok {| returncode := code; stdout := out; stderr := err |}
      end
  end.

End Subprocess.

(** ** The csv module: reader with the default (excel) dialect, DictReader *)

Module Csv.

Inductive state : Type :=
| START_RECORD
| START_FIELD
| IN_FIELD
| IN_QUOTED_FIELD
| QUOTE_IN_QUOTED_FIELD
| EAT_CRNL.

Definition state_eqb (a b : state) : bool :=
  match a, b with
  | START_RECORD, START_RECORD
  | START_FIELD, START_FIELD
  | IN_FIELD, IN_FIELD
  | IN_QUOTED_FIELD, IN_QUOTED_FIELD
  | QUOTE_IN_QUOTED_FIELD, QUOTE_IN_QUOTED_FIELD
  | EAT_CRNL, EAT_CRNL => true
  | _, _ => false
  end.

(** Parser state: the fields of the current record and the characters of
    the current field, both most recent first. *)
Record reader : Type := {
  st : state;
  fields : list string;
  field : list ascii;
  field_len : N
}.

Definition delimiter : ascii := ",".
Definition quotechar : ascii := ascii_of_N 34.
Definition field_limit : N := 131072.

Definition parse_reset : reader :=
  {| st := START_RECORD; fields := []; field := []; field_len := 0 |}.

Definition set_state (s : state) (r : reader) : reader :=
  {| st := s; fields := fields r; field := field r; field_len := field_len r |}.

Definition parse_save_field (r : reader) : reader :=
  {| st := st r;
     fields := string_of_list_ascii (rev (field r)) :: fields r;
     field := [];
     field_len := 0 |}.

Definition parse_add_char (r : reader) (c : ascii) : result reader :=
  if (field_limit <=? field_len r)%N
  then Raise (Exn CsvError "field larger than field limit (131072)")
  else Ok {| st := st r; fields := fields r; field := c :: field r;
             field_len := N.succ (field_len r) |}.

Definition is_newline (c : ascii) : bool := Ascii.eqb c LF || Ascii.eqb c CR.

Definition after_eol (eol : bool) : state :=
  if eol then START_RECORD else EAT_CRNL.

Definition start_field (r : reader) (c : option ascii) : result reader :=
  match c with
  | None => Ok (set_state START_RECORD (parse_save_field r))
  | Some ch =>
      if is_newline ch then Ok (set_state EAT_CRNL (parse_save_field r))
      else if Ascii.eqb ch quotechar then Ok (set_state IN_QUOTED_FIELD r)
      else if Ascii.eqb ch delimiter then Ok (parse_save_field r)
      else r' <- parse_add_char r ch ;; Ok (set_state IN_FIELD r')
  end.

(** One step of the parser; [None] is the end-of-line mark fed after the
    last character of each line. *)
Definition parse_process_char (r : reader) (c : option ascii) : result reader :=
  match st r with
  | START_RECORD =>
      match c with
      | None => Ok r
      | Some ch =>
          if is_newline ch then Ok (set_state EAT_CRNL r)
          else start_field (set_state START_FIELD r) c
      end
  | START_FIELD => start_field r c
  | IN_FIELD =>
      match c with
      | None => Ok (set_state START_RECORD (parse_save_field r))
      | Some ch =>
          if is_newline ch then Ok (set_state EAT_CRNL (parse_save_field r))
          else if Ascii.eqb ch delimiter
               then Ok (set_state START_FIELD (parse_save_field r))
          else parse_add_char r ch
      end
  | IN_QUOTED_FIELD =>
      match c with
      | None => Ok r
      | Some ch =>
          if Ascii.eqb ch quotechar then Ok (set_state QUOTE_IN_QUOTED_FIELD r)
          else parse_add_char r ch
      end
  | QUOTE_IN_QUOTED_FIELD =>
      match c with
      | None => Ok (set_state START_RECORD (parse_save_field r))
      | Some ch =>
          if Ascii.eqb ch quotechar
          then r' <- parse_add_char r ch ;; Ok (set_state IN_QUOTED_FIELD r')
          else if Ascii.eqb ch delimiter
               then Ok (set_state START_FIELD (parse_save_field r))
          else if is_newline ch
               then Ok (set_state EAT_CRNL (parse_save_field r))
          else r' <- parse_add_char r ch ;; Ok (set_state IN_FIELD r')
      end
  | EAT_CRNL =>
      match c with
      | None => Ok (set_state START_RECORD r)
      | Some ch =>
          if is_newline ch then Ok r
          else Raise (Exn CsvError
            "new-line character seen in unquoted field - do you need to open the file with newline=''?")
      end
  end.

Fixpoint feed (r : reader) (line : string) : result reader :=
  match line with
  | EmptyString => parse_process_char r None
  | String c rest => r' <- parse_process_char r (Some c) ;; feed r' rest
  end.

Definition record_of (r : reader) : list string := rev (fields r).

(** The records the reader yields over the given lines, in order, and the
    error that ends the iteration if one is raised. A record is complete
    when a line leaves the parser in [START_RECORD]; at the end of the
    input an open quoted field is closed. *)
Fixpoint records (r : reader) (lines : list string)
  : list (list string) * option exn :=
  match lines with
  | [] =>
      if negb (field_len r =? 0)%N || state_eqb (st r) IN_QUOTED_FIELD
      then ([record_of (parse_save_field r)], None)
      else ([], None)
  | line :: rest =>
      match feed r line with
      | Raise e => ([], Some e)
      | Ok r' =>
          if state_eqb (st r') START_RECORD
          then let (rs, e) := records parse_reset rest in (record_of r' :: rs, e)
          else records r' rest
      end
  end.

Definition reader_records (lines : list string) : list (list string) * option exn :=
  records parse_reset lines.

End Csv.

(** ** Dictionaries of result rows *)

Module Dict.

(** Keys of a row: a column name, or [None] (the key DictReader uses for
    surplus fields). *)
Inductive key : Type :=
| KNone
| KStr (s : string).

(** Values of a row. *)
Inductive value : Type :=
| VNone
| VStr (s : string)
| VInt (n : Z)
| VList (l : list string).

Definition key_eqb (a b : key) : bool :=
  match a, b with
  | KNone, KNone => true
  | KStr x, KStr y => String.eqb x y
  | _, _ => false
  end.

(** A [dict] in insertion order, keys pairwise distinct. *)
Definition t : Type := list (key * value).

Fixpoint get (k : key) (d : t) : option value :=
  match d with
  | [] => None
  | (k', v) :: rest => if key_eqb k k' then Some v else get k rest
  end.

(** [d[k] = v]: overwrite in place, or append. *)
Fixpoint set (k : key) (v : value) (d : t) : t :=
  match d with
  | [] => [(k, v)]
  | (k', v') :: rest =>
      if key_eqb k k' then (k', v) :: rest else (k', v') :: set k v rest
  end.

(** [dict(pairs)]. *)
Definition of_pairs (l : list (key * value)) : t :=
  fold_left (fun d kv => set (fst kv) (snd kv) d) l [].

End Dict.

Module DictReader.
Import Dict.

(** The row built by [DictReader.__next__] from the field names and one
    non-empty record: short rows are filled with [None], surplus fields go
    under the key [None]. *)
Definition make_row (fieldnames row : list string) : Dict.t :=
  let d := of_pairs (combine (map KStr fieldnames) (map VStr row)) in
  let lf := List.length fieldnames in
  let lr := List.length row in
  if (lf <? lr)%nat then set KNone (VList (skipn lf row)) d
  else if (lr <? lf)%nat
       then fold_left (fun d k => set (KStr k) VNone d) (skipn lr fieldnames) d
  else d.

Definition is_nil {A} (l : list A) : bool :=
  match l with [] => true | _ => false end.

(** Data records after the header: empty records are skipped. *)
Definition data_records (rs : list (list string)) : list (list string) :=
  filter (fun r => negb (is_nil r)) rs.

(** The rows a [DictReader] over the given lines yields, in order, and the
    error that ends the iteration if the underlying reader raises one. The
    first record supplies the field names. *)
Definition rows (lines : list string) : list Dict.t * option exn :=
  match Csv.reader_records lines with
  | ([], e) => ([], e)
  | (fieldnames :: rest, e) => (map (make_row fieldnames) (data_records rest), e)
  end.

End DictReader.

(** ** everything_search.py: class EverythingSearch *)

Module ES.
Import Subprocess Dict.

Record EverythingSearch : Type := { es_path : string }.

Definition default_es_path : string := "/mnt/c/Program Files/Everything/es.exe".

(** [EverythingSearch.__init__]. *)
Definition init (w : World) (path : string) : result EverythingSearch :=
  if path_exists w path then Ok {| es_path := path |}
  else Raise (Exn FileNotFoundError
                ("Everything Search executable not found at: " ++ path)).

(** The parameters of [search]. *)
Record QueryConfig : Type := {
  query : string;
  regex : bool;
  case_sensitive : bool;
  whole_words : bool;
  match_path : bool;
  match_diacritics : bool;
  max_results : option Z;
  offset : Z;
  path_filter : option string;
  parent_path : option string;
  parent : option string;
  folders_only : bool;
  files_only : bool;
  attributes : option string;
  sort_by : option string;
  sort_ascending : bool;
  include_name : bool;
  include_path : bool;
  include_full_path : bool;
  include_extension : bool;
  include_size : bool;
  include_date_created : bool;
  include_date_modified : bool;
  include_date_accessed : bool;
  include_attributes : bool;
  timeout : Z
}.

(** The parameter defaults of [search]. *)
Definition defaults : QueryConfig := {|
  query := ""; regex := false; case_sensitive := false; whole_words := false;
  match_path := false; match_diacritics := false; max_results := None;
  offset := 0; path_filter := None; parent_path := None; parent := None;
  folders_only := false; files_only := false; attributes := None;
  sort_by := None; sort_ascending := true; include_name := true;
  include_path := false; include_full_path := false;
  include_extension := false; include_size := false;
  include_date_created := false; include_date_modified := false;
  include_date_accessed := false; include_attributes := false;
  timeout := 5000 |}.

(** [if b: cmd.append / cmd.extend]. *)
Definition opt (b : bool) (tokens : list string) : list string :=
  if b then tokens else [].

(** [if s: ...] for an optional string. *)
Definition opt_str (o : option string) (tokens : string -> list string)
  : list string :=
  match o with
  | Some s => if truthy s then tokens s else []
  | None => []
  end.

Definition file_type_filter (q : QueryConfig) : list string :=
  if folders_only q then ["/ad"]
  else if files_only q then ["/a-d"]
  else [].

Definition sort_order (q : QueryConfig) : string :=
  if sort_ascending q then "ascending" else "descending".

(** The list [cmd] that [search] builds before it runs the process. *)
Definition search_cmd (self : EverythingSearch) (q : QueryConfig) : list string :=
  [es_path self]
  ++ (if regex q then ["-regex"; query q] else [query q])
  ++ opt (case_sensitive q) ["-case"]
  ++ opt (whole_words q) ["-whole-words"]
  ++ opt (match_path q) ["-match-path"]
  ++ opt (match_diacritics q) ["-diacritics"]
  ++ match max_results q with
     | Some n => ["-max-results"; str_int n]
     | None => []
     end
  ++ opt (0 <? offset q) ["-offset"; str_int (offset q)]
  ++ opt_str (path_filter q) (fun s => ["-path"; s])
  ++ opt_str (parent_path q) (fun s => ["-parent-path"; s])
  ++ opt_str (parent q) (fun s => ["-parent"; s])
  ++ file_type_filter q
  ++ opt_str (attributes q) (fun s => ["/a" ++ s])
  ++ opt_str (sort_by q) (fun s => ["-sort"; s ++ "-" ++ sort_order q])
  ++ opt (include_name q) ["-name"]
  ++ opt (include_path q) ["-path-column"]
  ++ opt (include_full_path q) ["-full-path-and-name"]
  ++ opt (include_extension q) ["-extension"]
  ++ opt (include_size q) ["-size"]
  ++ opt (include_date_created q) ["-date-created"]
  ++ opt (include_date_modified q) ["-date-modified"]
  ++ opt (include_date_accessed q) ["-date-accessed"]
  ++ opt (include_attributes q) ["-attributes"]
  ++ ["-csv"]
  ++ ["-timeout"; str_int (timeout q)].

Definition Size : key := KStr "Size".

(** Body of the loop of [_parse_csv_output]:
    [if "Size" in row and row["Size"].isdigit(): row["Size"] = int(row["Size"])].
    Only a [str] has the method [isdigit]. *)
Definition size_to_int (row : Dict.t) : result Dict.t :=
  match get Size row with
  | None => Ok row
  | Some (VStr s) =>
      if isdigit s then
        match int s with
        | Some n => Ok (set Size (VInt n) row)
        | None =>
            Raise (Exn ValueError
                     ("invalid literal for int() with base 10: '" ++ s ++ "'"))
        end
      else Ok row
  | Some VNone =>
      Raise (Exn AttributeError "'NoneType' object has no attribute 'isdigit'")
  | Some (VInt _) =>
      Raise (Exn AttributeError "'int' object has no attribute 'isdigit'")
  | Some (VList _) =>
      Raise (Exn AttributeError "'list' object has no attribute 'isdigit'")
  end.

(** [for row in reader: ...; results.append(dict(row))], over the rows the
    reader yields and the error that may end them. *)
Fixpoint for_rows (rows : list Dict.t) (err : option exn) (results : list Dict.t)
  : result (list Dict.t) :=
  match rows with
  | [] => match err with Some e => Raise e | None => Ok results end
  | row :: rest =>
      row' <- size_to_int row ;; for_rows rest err (results ++ [row'])
  end.

Definition _parse_csv_output (csv_output : string) : result (list Dict.t) :=
  if negb (truthy (strip csv_output)) then Ok []
  else
    let lines := split LF (strip csv_output) in
    if (List.length lines <? 2)%nat then Ok []
    else
      let (rows, err) := DictReader.rows lines in
      for_rows rows err [].

(** [search]: build the command, run it, parse its output. *)
Definition search (w : World) (self : EverythingSearch) (q : QueryConfig)
  : result (list Dict.t) :=
  let cmd := search_cmd self q in
  try_except
    (result <- run w cmd None ;;
     if negb (returncode result =? 0)
     then Raise (Exn RuntimeError ("Everything Search failed: " ++ stderr result))
     else _parse_csv_output (stdout result))
    (fun e =>
       if is_class TimeoutExpired e
       then Raise (Exn TimeoutError
                     ("Search timed out after " ++ str_int (timeout q) ++ "ms"))
       else Raise (Exn RuntimeError ("Error executing search: " ++ exn_str e))).

Definition get_version (w : World) (self : EverythingSearch) : result string :=
  try_except
    (result <- run w [es_path self; "-version"] None ;;
     Ok (strip (stdout result)))
    (fun e => Raise (Exn RuntimeError ("Error getting version: " ++ exn_str e))).

Definition get_result_count (w : World) (self : EverythingSearch) (query : string)
  : result Z :=
  let cmd := [es_path self; "-get-result-count"; query] in
  try_except
    (result <- run w cmd None ;;
     if returncode result =? 0 then
       match int (strip (stdout result)) with
       | Some n => Ok n
       | None =>
           (* the message is never seen: the handler below discards it *)
           Raise (Exn ValueError "invalid literal for int() with base 10")
       end
     else Ok 0)
    (fun _ => Ok 0).

(** *** Keyword arguments and the convenience methods *)

(** [**kwargs] of a call: for each parameter of [search], the value passed
    under its name, if any. *)
Record Kwargs : Type := {
  kw_query : option (string);
  kw_regex : option (bool);
  kw_case_sensitive : option (bool);
  kw_whole_words : option (bool);
  kw_match_path : option (bool);
  kw_match_diacritics : option (bool);
  kw_max_results : option (option Z);
  kw_offset : option (Z);
  kw_path_filter : option (option string);
  kw_parent_path : option (option string);
  kw_parent : option (option string);
  kw_folders_only : option (bool);
  kw_files_only : option (bool);
  kw_attributes : option (option string);
  kw_sort_by : option (option string);
  kw_sort_ascending : option (bool);
  kw_include_name : option (bool);
  kw_include_path : option (bool);
  kw_include_full_path : option (bool);
  kw_include_extension : option (bool);
  kw_include_size : option (bool);
  kw_include_date_created : option (bool);
  kw_include_date_modified : option (bool);
  kw_include_date_accessed : option (bool);
  kw_include_attributes : option (bool);
  kw_timeout : option (Z)
}.

Definition or_default {A} (o : option A) (d : A) : A :=
  match o with Some a => a | None => d end.

Definition is_some {A} (o : option A) : bool :=
  match o with Some _ => true | None => false end.

(** Parameters not passed take their defaults. *)
Definition bind_kwargs (kw : Kwargs) : QueryConfig :=
  {| query := or_default (kw_query kw) (query defaults);
     regex := or_default (kw_regex kw) (regex defaults);
     case_sensitive := or_default (kw_case_sensitive kw) (case_sensitive defaults);
     whole_words := or_default (kw_whole_words kw) (whole_words defaults);
     match_path := or_default (kw_match_path kw) (match_path defaults);
     match_diacritics := or_default (kw_match_diacritics kw) (match_diacritics defaults);
     max_results := or_default (kw_max_results kw) (max_results defaults);
     offset := or_default (kw_offset kw) (offset defaults);
     path_filter := or_default (kw_path_filter kw) (path_filter defaults);
     parent_path := or_default (kw_parent_path kw) (parent_path defaults);
     parent := or_default (kw_parent kw) (parent defaults);
     folders_only := or_default (kw_folders_only kw) (folders_only defaults);
     files_only := or_default (kw_files_only kw) (files_only defaults);
     attributes := or_default (kw_attributes kw) (attributes defaults);
     sort_by := or_default (kw_sort_by kw) (sort_by defaults);
     sort_ascending := or_default (kw_sort_ascending kw) (sort_ascending defaults);
     include_name := or_default (kw_include_name kw) (include_name defaults);
     include_path := or_default (kw_include_path kw) (include_path defaults);
     include_full_path := or_default (kw_include_full_path kw) (include_full_path defaults);
     include_extension := or_default (kw_include_extension kw) (include_extension defaults);
     include_size := or_default (kw_include_size kw) (include_size defaults);
     include_date_created := or_default (kw_include_date_created kw) (include_date_created defaults);
     include_date_modified := or_default (kw_include_date_modified kw) (include_date_modified defaults);
     include_date_accessed := or_default (kw_include_date_accessed kw) (include_date_accessed defaults);
     include_attributes := or_default (kw_include_attributes kw) (include_attributes defaults);
     timeout := or_default (kw_timeout kw) (timeout defaults) |}.

Definition with_query (s : string) (q : QueryConfig) : QueryConfig :=
  {| query := s;
     regex := regex q;
     case_sensitive := case_sensitive q;
     whole_words := whole_words q;
     match_path := match_path q;
     match_diacritics := match_diacritics q;
     max_results := max_results q;
     offset := offset q;
     path_filter := path_filter q;
     parent_path := parent_path q;
     parent := parent q;
     folders_only := folders_only q;
     files_only := files_only q;
     attributes := attributes q;
     sort_by := sort_by q;
     sort_ascending := sort_ascending q;
     include_name := include_name q;
     include_path := include_path q;
     include_full_path := include_full_path q;
     include_extension := include_extension q;
     include_size := include_size q;
     include_date_created := include_date_created q;
     include_date_modified := include_date_modified q;
     include_date_accessed := include_date_accessed q;
     include_attributes := include_attributes q;
     timeout := timeout q |}.

Definition with_files_only (b : bool) (q : QueryConfig) : QueryConfig :=
  {| query := query q;
     regex := regex q;
     case_sensitive := case_sensitive q;
     whole_words := whole_words q;
     match_path := match_path q;
     match_diacritics := match_diacritics q;
     max_results := max_results q;
     offset := offset q;
     path_filter := path_filter q;
     parent_path := parent_path q;
     parent := parent q;
     folders_only := folders_only q;
     files_only := b;
     attributes := attributes q;
     sort_by := sort_by q;
     sort_ascending := sort_ascending q;
     include_name := include_name q;
     include_path := include_path q;
     include_full_path := include_full_path q;
     include_extension := include_extension q;
     include_size := include_size q;
     include_date_created := include_date_created q;
     include_date_modified := include_date_modified q;
     include_date_accessed := include_date_accessed q;
     include_attributes := include_attributes q;
     timeout := timeout q |}.

Definition with_folders_only (b : bool) (q : QueryConfig) : QueryConfig :=
  {| query := query q;
     regex := regex q;
     case_sensitive := case_sensitive q;
     whole_words := whole_words q;
     match_path := match_path q;
     match_diacritics := match_diacritics q;
     max_results := max_results q;
     offset := offset q;
     path_filter := path_filter q;
     parent_path := parent_path q;
     parent := parent q;
     folders_only := b;
     files_only := files_only q;
     attributes := attributes q;
     sort_by := sort_by q;
     sort_ascending := sort_ascending q;
     include_name := include_name q;
     include_path := include_path q;
     include_full_path := include_full_path q;
     include_extension := include_extension q;
     include_size := include_size q;
     include_date_created := include_date_created q;
     include_date_modified := include_date_modified q;
     include_date_accessed := include_date_accessed q;
     include_attributes := include_attributes q;
     timeout := timeout q |}.

(** [kwargs.setdefault("include_size", True)]. *)
Definition setdefault_include_size (kw : Kwargs) : Kwargs :=
  {| kw_query := kw_query kw;
     kw_regex := kw_regex kw;
     kw_case_sensitive := kw_case_sensitive kw;
     kw_whole_words := kw_whole_words kw;
     kw_match_path := kw_match_path kw;
     kw_match_diacritics := kw_match_diacritics kw;
     kw_max_results := kw_max_results kw;
     kw_offset := kw_offset kw;
     kw_path_filter := kw_path_filter kw;
     kw_parent_path := kw_parent_path kw;
     kw_parent := kw_parent kw;
     kw_folders_only := kw_folders_only kw;
     kw_files_only := kw_files_only kw;
     kw_attributes := kw_attributes kw;
     kw_sort_by := kw_sort_by kw;
     kw_sort_ascending := kw_sort_ascending kw;
     kw_include_name := kw_include_name kw;
     kw_include_path := kw_include_path kw;
     kw_include_full_path := kw_include_full_path kw;
     kw_include_extension := kw_include_extension kw;
     kw_include_size := Some (or_default (kw_include_size kw) true);
     kw_include_date_created := kw_include_date_created kw;
     kw_include_date_modified := kw_include_date_modified kw;
     kw_include_date_accessed := kw_include_date_accessed kw;
     kw_include_attributes := kw_include_attributes kw;
     kw_timeout := kw_timeout kw |}.

(** [kwargs.setdefault("include_date_modified", True)]. *)
Definition setdefault_include_date_modified (kw : Kwargs) : Kwargs :=
  {| kw_query := kw_query kw;
     kw_regex := kw_regex kw;
     kw_case_sensitive := kw_case_sensitive kw;
     kw_whole_words := kw_whole_words kw;
     kw_match_path := kw_match_path kw;
     kw_match_diacritics := kw_match_diacritics kw;
     kw_max_results := kw_max_results kw;
     kw_offset := kw_offset kw;
     kw_path_filter := kw_path_filter kw;
     kw_parent_path := kw_parent_path kw;
     kw_parent := kw_parent kw;
     kw_folders_only := kw_folders_only kw;
     kw_files_only := kw_files_only kw;
     kw_attributes := kw_attributes kw;
     kw_sort_by := kw_sort_by kw;
     kw_sort_ascending := kw_sort_ascending kw;
     kw_include_name := kw_include_name kw;
     kw_include_path := kw_include_path kw;
     kw_include_full_path := kw_include_full_path kw;
     kw_include_extension := kw_include_extension kw;
     kw_include_size := kw_include_size kw;
     kw_include_date_created := kw_include_date_created kw;
     kw_include_date_modified := Some (or_default (kw_include_date_modified kw) true);
     kw_include_date_accessed := kw_include_date_accessed kw;
     kw_include_attributes := kw_include_attributes kw;
     kw_timeout := kw_timeout kw |}.

(** A call that passes one parameter twice fails before the body runs. *)
Definition multiple_values (name : string) : exn :=
  Exn TypeError
    ("EverythingSearch.search() got multiple values for keyword argument '"
     ++ name ++ "'").

Definition search_files (w : World) (self : EverythingSearch) (query : string)
  (kwargs : Kwargs) : result (list Dict.t) :=
  if is_some (kw_query kwargs) then Raise (multiple_values "query")
  else if is_some (kw_files_only kwargs) then Raise (multiple_values "files_only")
  else search w self (with_files_only true (with_query query (bind_kwargs kwargs))).

Definition search_folders (w : World) (self : EverythingSearch) (query : string)
  (kwargs : Kwargs) : result (list Dict.t) :=
  if is_some (kw_query kwargs) then Raise (multiple_values "query")
  else if is_some (kw_folders_only kwargs)
       then Raise (multiple_values "folders_only")
  else search w self (with_folders_only true (with_query query (bind_kwargs kwargs))).

Definition search_by_extension (w : World) (self : EverythingSearch)
  (extension : string) (kwargs : Kwargs) : result (list Dict.t) :=
  let query := "ext:" ++ extension in
  if is_some (kw_query kwargs) then Raise (multiple_values "query")
  else if is_some (kw_files_only kwargs) then Raise (multiple_values "files_only")
  else search w self (with_files_only true (with_query query (bind_kwargs kwargs))).

Definition search_by_size (w : World) (self : EverythingSearch)
  (size_filter : string) (kwargs : Kwargs) : result (list Dict.t) :=
  let query := "size:" ++ size_filter in
  let kwargs := setdefault_include_size kwargs in
  if is_some (kw_query kwargs) then Raise (multiple_values "query")
  else if is_some (kw_files_only kwargs) then Raise (multiple_values "files_only")
  else search w self (with_files_only true (with_query query (bind_kwargs kwargs))).

Definition search_recent (w : World) (self : EverythingSearch) (days : Z)
  (kwargs : Kwargs) : result (list Dict.t) :=
  let query := "datemodified:last" ++ str_int days ++ "days" in
  let kwargs := setdefault_include_date_modified kwargs in
  if is_some (kw_query kwargs) then Raise (multiple_values "query")
  else search w self (with_query query (bind_kwargs kwargs)).

(** *** Export *)

(** [kwargs.get(name)] used as a condition, for a flag. *)
Definition kw_flag (o : option bool) : bool := or_default o false.

(** [kwargs.get("max_results")] used as a condition: absent, [None] and 0
    are false. *)
Definition kw_max_results_given (o : option (option Z)) : option Z :=
  match o with
  | Some (Some n) => if n =? 0 then None else Some n
  | _ => None
  end.

(** The list [cmd] that [export_results] builds. *)
Definition export_cmd (self : EverythingSearch) (query output_file format : string)
  (kwargs : Kwargs) : list string :=
  [es_path self; query; "-export-" ++ format; output_file]
  ++ opt (kw_flag (kw_regex kwargs)) ["-regex"]
  ++ opt (kw_flag (kw_case_sensitive kwargs)) ["-case"]
  ++ match kw_max_results_given (kw_max_results kwargs) with
     | Some n => ["-max-results"; str_int n]
     | None => []
     end.

(** [export_results]; it returns nothing. [kwargs] holds the keywords other
    than the named parameters, so a keyword [query] is a second value for
    the parameter and the call fails before the body runs. *)
Definition export_results (w : World) (self : EverythingSearch)
  (query output_file format : string) (kwargs : Kwargs) : result unit :=
  if is_some (kw_query kwargs)
  then Raise (Exn TypeError
                "EverythingSearch.export_results() got multiple values for argument 'query'")
  else
    let cmd := export_cmd self query output_file format kwargs in
    try_except
      (result <- run w cmd None ;;
       if negb (returncode result =? 0)
       then Raise (Exn RuntimeError ("Export failed: " ++ stderr result))
       else Ok tt)
      (fun e => Raise (Exn RuntimeError ("Error exporting results: " ++ exn_str e))).

End ES.

(** ** json.dumps on the values the adapters serialise *)

Module Json.

#[local] Unset Elimination Schemes.
Inductive json : Type :=
| JNull
| JInt (n : Z)
| JStr (s : string)
| JList (l : list json)
| JObj (l : list (string * json)).
#[local] Set Elimination Schemes.

Definition hex_digit (n : N) : ascii :=
  if (n <? 10)%N then ascii_of_N (48 + n) else ascii_of_N (87 + n).

Definition dquote : string := String (ascii_of_N 34) EmptyString.
Definition backslash : string := String (ascii_of_N 92) EmptyString.

(** Escape of one character with [ensure_ascii]: the short escapes, the
    printable ASCII characters as they are, [\u00xx] for the rest. *)
Definition escape_char (c : ascii) : string :=
  let n := code c in
  if (n =? 34)%N then backslash ++ dquote
  else if (n =? 92)%N then backslash ++ backslash
  else if (n =? 10)%N then backslash ++ "n"
  else if (n =? 13)%N then backslash ++ "r"
  else if (n =? 9)%N then backslash ++ "t"
  else if (n =? 8)%N then backslash ++ "b"
  else if (n =? 12)%N then backslash ++ "f"
  else if ((32 <=? n) && (n <=? 126))%N then String c EmptyString
  else backslash ++ "u00"
       ++ String (hex_digit (n / 16)) (String (hex_digit (n mod 16)) EmptyString).

Fixpoint escape (s : string) : string :=
  match s with
  | EmptyString => EmptyString
  | String c r => escape_char c ++ escape r
  end.

Definition encode_str (s : string) : string := dquote ++ escape s ++ dquote.

Fixpoint spaces (n : nat) : string :=
  match n with O => EmptyString | S k => String " " (spaces k) end.

(** Line break and indentation before an item at the given depth; nothing
    when no indent is requested. *)
Definition newline_indent (indent : option nat) (level : nat) : string :=
  match indent with
  | Some n => nl ++ spaces (n * level)
  | None => EmptyString
  end.

Definition item_separator (indent : option nat) (level : nat) : string :=
  match indent with
  | Some _ => "," ++ newline_indent indent level
  | None => ", "
  end.

Fixpoint encode (indent : option nat) (level : nat) (j : json) : string :=
  match j with
  | JNull => "null"
  | JInt n => str_int n
  | JStr s => encode_str s
  | JList [] => "[]"
  | JList l =>
      "[" ++ newline_indent indent (S level)
      ++ String.concat (item_separator indent (S level))
           (map (encode indent (S level)) l)
      ++ newline_indent indent level ++ "]"
  | JObj [] => "{}"
  | JObj l =>
      "{" ++ newline_indent indent (S level)
      ++ String.concat (item_separator indent (S level))
           (map (fun kv : string * json => let (k, v) := kv in
                           encode_str k ++ ": " ++ encode indent (S level) v) l)
      ++ newline_indent indent level ++ "}"
  end.

(** [json.dumps(obj, indent=indent)]. *)
Definition dumps (indent : option nat) (j : json) : string := encode indent 0 j.

Definition of_key (k : Dict.key) : string :=
  match k with
  | Dict.KNone => "null"
  | Dict.KStr s => s
  end.

Definition of_value (v : Dict.value) : json :=
  match v with
  | Dict.VNone => JNull
  | Dict.VStr s => JStr s
  | Dict.VInt n => JInt n
  | Dict.VList l => JList (map JStr l)
  end.

Definition of_row (d : Dict.t) : json :=
  JObj (map (fun kv => (of_key (fst kv), of_value (snd kv))) d).

Definition of_results (rs : list Dict.t) : json := JList (map of_row rs).

(** The error object of the adapters: [{"error": msg}]. *)
Definition error_object (msg : string) : json := JObj [("error", JStr msg)].

End Json.

(** ** mcp_server.py: the tool adapters *)

Module Mcp.
Import Subprocess ES Json.

(** The module-level [es_instance]; [None] until the first successful
    construction. *)
Definition global : Type := option EverythingSearch.

Definition get_everything_search (w : World) (es_instance : global)
  : result EverythingSearch * global :=
  match es_instance with
  | Some es => (Ok es, Some es)
  | None =>
      match ES.init w default_es_path with
      | Ok es => (Ok es, Some es)
      | Raise e => (Raise e, None)
      end
  end.

(** [except Exception as e: return json.dumps({"error": str(e)})]. *)
Definition on_error (e : exn) : result string :=
  Ok (dumps None (error_object (exn_str e))).

(** The common shape of every tool: obtain the handle and run the body
    inside [try]; any exception becomes the error object. *)
Definition guarded (w : World) (g : global)
  (body : EverythingSearch -> result string) : result string * global :=
  let (h, g') := get_everything_search w g in
  (try_except (es <- h ;; body es) on_error, g').

(** [return json.dumps(results, indent=2)]. *)
Definition dump_results (r : result (list Dict.t)) : result string :=
  results <- r ;; Ok (dumps (Some 2%nat) (of_results results)).

(** The tools with their arguments. *)
Inductive request : Type :=
| SearchFiles (query : string) (max_results : Z)
    (regex case_sensitive include_size include_date_modified : bool)
    (sort_by : string) (timeout : Z)
| SearchFolders (query : string) (max_results : Z) (regex case_sensitive : bool)
    (sort_by : string) (timeout : Z)
| SearchByExtension (extension : string) (max_results : Z)
    (include_size include_date_modified : bool) (sort_by : string)
| SearchBySize (size_filter : string) (max_results : Z)
    (include_date_modified : bool) (sort_by : string) (sort_ascending : bool)
| SearchRecentFiles (days : Z) (max_results : Z) (include_size : bool)
    (sort_by : string) (sort_ascending : bool)
| AdvancedSearch (query : string) (max_results : Z)
    (regex case_sensitive whole_words match_path : bool)
    (files_only folders_only : bool) (path_filter : option string)
    (include_size include_extension include_date_modified : bool)
    (sort_by : string) (sort_ascending : bool) (timeout : Z)
| GetResultCount (query : string)
| GetEverythingVersion.

(** What each tool does inside its [try] once it holds the handle. *)
Definition try_body (w : World) (r : request) (es : EverythingSearch)
  : result string :=
  match r with
  | SearchFiles query max_results regex case_sensitive include_size
      include_date_modified sort_by timeout =>
      dump_results (ES.search_files w es query
        {| kw_query := None;
         kw_regex := Some regex;
         kw_case_sensitive := Some case_sensitive;
         kw_whole_words := None;
         kw_match_path := None;
         kw_match_diacritics := None;
         kw_max_results := Some (Some max_results);
         kw_offset := None;
         kw_path_filter := None;
         kw_parent_path := None;
         kw_parent := None;
         kw_folders_only := None;
         kw_files_only := None;
         kw_attributes := None;
         kw_sort_by := Some (Some sort_by);
         kw_sort_ascending := None;
         kw_include_name := None;
         kw_include_path := None;
         kw_include_full_path := Some true;
         kw_include_extension := None;
         kw_include_size := Some include_size;
         kw_include_date_created := None;
         kw_include_date_modified := Some include_date_modified;
         kw_include_date_accessed := None;
         kw_include_attributes := None;
         kw_timeout := Some timeout |})
  | SearchFolders query max_results regex case_sensitive sort_by timeout =>
      dump_results (ES.search_folders w es query
        {| kw_query := None;
         kw_regex := Some regex;
         kw_case_sensitive := Some case_sensitive;
         kw_whole_words := None;
         kw_match_path := None;
         kw_match_diacritics := None;
         kw_max_results := Some (Some max_results);
         kw_offset := None;
         kw_path_filter := None;
         kw_parent_path := None;
         kw_parent := None;
         kw_folders_only := None;
         kw_files_only := None;
         kw_attributes := None;
         kw_sort_by := Some (Some sort_by);
         kw_sort_ascending := None;
         kw_include_name := None;
         kw_include_path := None;
         kw_include_full_path := Some true;
         kw_include_extension := None;
         kw_include_size := None;
         kw_include_date_created := None;
         kw_include_date_modified := None;
         kw_include_date_accessed := None;
         kw_include_attributes := None;
         kw_timeout := Some timeout |})
  | SearchByExtension extension max_results include_size include_date_modified
      sort_by =>
      dump_results (ES.search_by_extension w es extension
        {| kw_query := None;
         kw_regex := None;
         kw_case_sensitive := None;
         kw_whole_words := None;
         kw_match_path := None;
         kw_match_diacritics := None;
         kw_max_results := Some (Some max_results);
         kw_offset := None;
         kw_path_filter := None;
         kw_parent_path := None;
         kw_parent := None;
         kw_folders_only := None;
         kw_files_only := None;
         kw_attributes := None;
         kw_sort_by := Some (Some sort_by);
         kw_sort_ascending := None;
         kw_include_name := None;
         kw_include_path := None;
         kw_include_full_path := Some true;
         kw_include_extension := None;
         kw_include_size := Some include_size;
         kw_include_date_created := None;
         kw_include_date_modified := Some include_date_modified;
         kw_include_date_accessed := None;
         kw_include_attributes := None;
         kw_timeout := None |})
  | SearchBySize size_filter max_results include_date_modified sort_by
      sort_ascending =>
      dump_results (ES.search_by_size w es size_filter
        {| kw_query := None;
         kw_regex := None;
         kw_case_sensitive := None;
         kw_whole_words := None;
         kw_match_path := None;
         kw_match_diacritics := None;
         kw_max_results := Some (Some max_results);
         kw_offset := None;
         kw_path_filter := None;
         kw_parent_path := None;
         kw_parent := None;
         kw_folders_only := None;
         kw_files_only := None;
         kw_attributes := None;
         kw_sort_by := Some (Some sort_by);
         kw_sort_ascending := Some sort_ascending;
         kw_include_name := None;
         kw_include_path := None;
         kw_include_full_path := Some true;
         kw_include_extension := None;
         kw_include_size := Some true;
         kw_include_date_created := None;
         kw_include_date_modified := Some include_date_modified;
         kw_include_date_accessed := None;
         kw_include_attributes := None;
         kw_timeout := None |})
  | SearchRecentFiles days max_results include_size sort_by sort_ascending =>
      dump_results (ES.search_recent w es days
        {| kw_query := None;
         kw_regex := None;
         kw_case_sensitive := None;
         kw_whole_words := None;
         kw_match_path := None;
         kw_match_diacritics := None;
         kw_max_results := Some (Some max_results);
         kw_offset := None;
         kw_path_filter := None;
         kw_parent_path := None;
         kw_parent := None;
         kw_folders_only := None;
         kw_files_only := None;
         kw_attributes := None;
         kw_sort_by := Some (Some sort_by);
         kw_sort_ascending := Some sort_ascending;
         kw_include_name := None;
         kw_include_path := None;
         kw_include_full_path := Some true;
         kw_include_extension := None;
         kw_include_size := Some include_size;
         kw_include_date_created := None;
         kw_include_date_modified := Some true;
         kw_include_date_accessed := None;
         kw_include_attributes := None;
         kw_timeout := None |})
  | AdvancedSearch query max_results regex case_sensitive whole_words match_path
      files_only folders_only path_filter include_size include_extension
      include_date_modified sort_by sort_ascending timeout =>
      dump_results (ES.search w es (bind_kwargs
        {| kw_query := Some query;
         kw_regex := Some regex;
         kw_case_sensitive := Some case_sensitive;
         kw_whole_words := Some whole_words;
         kw_match_path := Some match_path;
         kw_match_diacritics := None;
         kw_max_results := Some (Some max_results);
         kw_offset := None;
         kw_path_filter := Some path_filter;
         kw_parent_path := None;
         kw_parent := None;
         kw_folders_only := Some folders_only;
         kw_files_only := Some files_only;
         kw_attributes := None;
         kw_sort_by := Some (Some sort_by);
         kw_sort_ascending := Some sort_ascending;
         kw_include_name := Some true;
         kw_include_path := None;
         kw_include_full_path := Some true;
         kw_include_extension := Some include_extension;
         kw_include_size := Some include_size;
         kw_include_date_created := None;
         kw_include_date_modified := Some include_date_modified;
         kw_include_date_accessed := None;
         kw_include_attributes := None;
         kw_timeout := Some timeout |}))
  | GetResultCount query =>
      count <- ES.get_result_count w es query ;;
      Ok (dumps None (JObj [("query", JStr query); ("count", JInt count)]))
  | GetEverythingVersion =>
      version <- ES.get_version w es ;;
      Ok (dumps None (JObj [("version", JStr version)]))
  end.

(** One tool invocation: the text returned to the transport, or the
    exception that crosses it, and the module state afterwards. *)
Definition call_tool (w : World) (g : global) (r : request)
  : result string * global :=
  guarded w g (try_body w r).

Definition search_files (w : World) (g : global) (query : string)
  (max_results : Z) (regex case_sensitive include_size include_date_modified : bool)
  (sort_by : string) (timeout : Z) : result string * global :=
  call_tool w g (SearchFiles query max_results regex case_sensitive include_size
                   include_date_modified sort_by timeout).


End Mcp.

(** ** debug_command.py: the wrapper that prints a command before searching *)

Module Debug.
Import Subprocess ES.

(** The list [cmd] that [debug_search] builds and prints. [arg0] is the first
    positional argument, if any. *)
Definition debug_cmd (es : EverythingSearch) (arg0 : option string)
  (kwargs : Kwargs) : list string :=
  let query := or_default (kw_query kwargs) (or_default arg0 "") in
  let path_filter := or_default (kw_path_filter kwargs) None in
  let timeout := or_default (kw_timeout kwargs) 5000 in
  let max_results := or_default (kw_max_results kwargs) None in
  [es_path es]
  ++ opt (truthy query) [query]
  ++ opt_str path_filter (fun s => ["-path"; s])
  ++ match max_results with
     | Some n => if n =? 0 then [] else ["-n"; str_int n]
     | None => []
     end
  ++ ["-csv"]
  ++ ["-timeout"; str_int timeout]
  ++ ["-full-path-and-name"].

(** The call of [original_search] with the same positional and keyword
    arguments: the query passed both by position and by keyword is a type
    error. *)
Definition original_search (w : World) (es : EverythingSearch)
  (arg0 : option string) (kwargs : Kwargs) : result (list Dict.t) :=
  match arg0 with
  | Some query =>
      if is_some (kw_query kwargs)
      then Raise (Exn TypeError
                    "EverythingSearch.search() got multiple values for argument 'query'")
      else search w es (with_query query (bind_kwargs kwargs))
  | None => search w es (bind_kwargs kwargs)
  end.

(** [debug_search]: what it prints, and what it returns. *)
Definition debug_search (w : World) (es : EverythingSearch)
  (arg0 : option string) (kwargs : Kwargs)
  : list string * result (list Dict.t) :=
  (debug_cmd es arg0 kwargs, original_search w es arg0 kwargs).

End Debug.

(** ** Vocabulary of the properties, and sample inputs *)

Module Props.
Import Subprocess Dict ES.

(** [sub] occurs in [s]. *)
Definition contains (sub s : string) : Prop :=
  exists pre post, s = pre ++ sub ++ post.



(** The rows as the DictReader hands them to the loop of
    [_parse_csv_output], before any conversion; none when the parser
    returns early. *)
Definition raw_rows (csv_output : string) : list Dict.t :=
  if negb (truthy (strip csv_output)) then []
  else
    let lines := split LF (strip csv_output) in
    if (List.length lines <? 2)%nat then []
    else fst (DictReader.rows lines).




Definition es0 : EverythingSearch := {| es_path := "es.exe" |}.

Definition csv_two_columns : string :=
  "Filename,Size" ++ nl ++ "test.txt,1024" ++ nl ++ "example.py,abc".

Definition csv_ragged : string := "Filename,Size" ++ nl ++ "test.txt".

(** A host on which the executable exists and every run takes
    [elapsed_ms], exits with [code] and prints [out] and [err]. *)
Definition host (elapsed_ms code : Z) (out err : string) : World :=
  {| path_exists := fun _ => true;
     process := fun _ => Exits elapsed_ms code out err |}.

(** A host without the executable. *)
Definition bare_host : World :=
  {| path_exists := fun _ => false;
     process := fun _ => Fails NoSuchFile "[Errno 2] No such file or directory" |}.

Definition both_filters : QueryConfig :=
  with_files_only true (with_folders_only true (with_query "report" defaults)).

Definition with_attributes (a : option string) (q : QueryConfig) : QueryConfig :=
  {| query := query q; regex := regex q; case_sensitive := case_sensitive q;
     whole_words := whole_words q; match_path := match_path q;
     match_diacritics := match_diacritics q; max_results := max_results q;
     offset := offset q; path_filter := path_filter q;
     parent_path := parent_path q; parent := parent q;
     folders_only := folders_only q; files_only := files_only q;
     attributes := a; sort_by := sort_by q; sort_ascending := sort_ascending q;
     include_name := include_name q; include_path := include_path q;
     include_full_path := include_full_path q;
     include_extension := include_extension q; include_size := include_size q;
     include_date_created := include_date_created q;
     include_date_modified := include_date_modified q;
     include_date_accessed := include_date_accessed q;
     include_attributes := include_attributes q; timeout := timeout q |}.

Definition with_regex (b : bool) (q : QueryConfig) : QueryConfig :=
  {| query := query q; regex := b; case_sensitive := case_sensitive q;
     whole_words := whole_words q; match_path := match_path q;
     match_diacritics := match_diacritics q; max_results := max_results q;
     offset := offset q; path_filter := path_filter q;
     parent_path := parent_path q; parent := parent q;
     folders_only := folders_only q; files_only := files_only q;
     attributes := attributes q; sort_by := sort_by q;
     sort_ascending := sort_ascending q;
     include_name := include_name q; include_path := include_path q;
     include_full_path := include_full_path q;
     include_extension := include_extension q; include_size := include_size q;
     include_date_created := include_date_created q;
     include_date_modified := include_date_modified q;
     include_date_accessed := include_date_accessed q;
     include_attributes := include_attributes q; timeout := timeout q |}.

(** The optional strings of a configuration with the empty string read as
    absent. *)
Definition absent_if_empty (o : option string) : option string :=
  match o with
  | Some s => if truthy s then Some s else None
  | None => None
  end.

Definition drop_empty (q : QueryConfig) : QueryConfig :=
  {| query := query q;
     regex := regex q;
     case_sensitive := case_sensitive q;
     whole_words := whole_words q;
     match_path := match_path q;
     match_diacritics := match_diacritics q;
     max_results := max_results q;
     offset := offset q;
     path_filter := absent_if_empty (path_filter q);
     parent_path := absent_if_empty (parent_path q);
     parent := absent_if_empty (parent q);
     folders_only := folders_only q;
     files_only := files_only q;
     attributes := absent_if_empty (attributes q);
     sort_by := absent_if_empty (sort_by q);
     sort_ascending := sort_ascending q;
     include_name := include_name q;
     include_path := include_path q;
     include_full_path := include_full_path q;
     include_extension := include_extension q;
     include_size := include_size q;
     include_date_created := include_date_created q;
     include_date_modified := include_date_modified q;
     include_date_accessed := include_date_accessed q;
     include_attributes := include_attributes q;
     timeout := timeout q |}.

Definition with_offset (n : Z) (q : QueryConfig) : QueryConfig :=
  {| query := query q;
     regex := regex q;
     case_sensitive := case_sensitive q;
     whole_words := whole_words q;
     match_path := match_path q;
     match_diacritics := match_diacritics q;
     max_results := max_results q;
     offset := n;
     path_filter := path_filter q;
     parent_path := parent_path q;
     parent := parent q;
     folders_only := folders_only q;
     files_only := files_only q;
     attributes := attributes q;
     sort_by := sort_by q;
     sort_ascending := sort_ascending q;
     include_name := include_name q;
     include_path := include_path q;
     include_full_path := include_full_path q;
     include_extension := include_extension q;
     include_size := include_size q;
     include_date_created := include_date_created q;
     include_date_modified := include_date_modified q;
     include_date_accessed := include_date_accessed q;
     include_attributes := include_attributes q;
     timeout := timeout q |}.

Definition with_max_results (m : option Z) (q : QueryConfig) : QueryConfig :=
  {| query := query q;
     regex := regex q;
     case_sensitive := case_sensitive q;
     whole_words := whole_words q;
     match_path := match_path q;
     match_diacritics := match_diacritics q;
     max_results := m;
     offset := offset q;
     path_filter := path_filter q;
     parent_path := parent_path q;
     parent := parent q;
     folders_only := folders_only q;
     files_only := files_only q;
     attributes := attributes q;
     sort_by := sort_by q;
     sort_ascending := sort_ascending q;
     include_name := include_name q;
     include_path := include_path q;
     include_full_path := include_full_path q;
     include_extension := include_extension q;
     include_size := include_size q;
     include_date_created := include_date_created q;
     include_date_modified := include_date_modified q;
     include_date_accessed := include_date_accessed q;
     include_attributes := include_attributes q;
     timeout := timeout q |}.

Definition with_sort_by (o : option string) (q : QueryConfig) : QueryConfig :=
  {| query := query q;
     regex := regex q;
     case_sensitive := case_sensitive q;
     whole_words := whole_words q;
     match_path := match_path q;
     match_diacritics := match_diacritics q;
     max_results := max_results q;
     offset := offset q;
     path_filter := path_filter q;
     parent_path := parent_path q;
     parent := parent q;
     folders_only := folders_only q;
     files_only := files_only q;
     attributes := attributes q;
     sort_by := o;
     sort_ascending := sort_ascending q;
     include_name := include_name q;
     include_path := include_path q;
     include_full_path := include_full_path q;
     include_extension := include_extension q;
     include_size := include_size q;
     include_date_created := include_date_created q;
     include_date_modified := include_date_modified q;
     include_date_accessed := include_date_accessed q;
     include_attributes := include_attributes q;
     timeout := timeout q |}.

Definition with_path_filter (o : option string) (q : QueryConfig) : QueryConfig :=
  {| query := query q;
     regex := regex q;
     case_sensitive := case_sensitive q;
     whole_words := whole_words q;
     match_path := match_path q;
     match_diacritics := match_diacritics q;
     max_results := max_results q;
     offset := offset q;
     path_filter := o;
     parent_path := parent_path q;
     parent := parent q;
     folders_only := folders_only q;
     files_only := files_only q;
     attributes := attributes q;
     sort_by := sort_by q;
     sort_ascending := sort_ascending q;
     include_name := include_name q;
     include_path := include_path q;
     include_full_path := include_full_path q;
     include_extension := include_extension q;
     include_size := include_size q;
     include_date_created := include_date_created q;
     include_date_modified := include_date_modified q;
     include_date_accessed := include_date_accessed q;
     include_attributes := include_attributes q;
     timeout := timeout q |}.


(** [x] is directly followed by [y] somewhere in [l]. *)
Definition followed_by (x y : string) (l : list string) : Prop :=
  exists pre post, l = (pre ++ x :: y :: post)%list.

(** No keyword arguments, and keyword arguments with one more entry. *)
Definition no_kwargs : Kwargs :=
  {| kw_query := None;
     kw_regex := None;
     kw_case_sensitive := None;
     kw_whole_words := None;
     kw_match_path := None;
     kw_match_diacritics := None;
     kw_max_results := None;
     kw_offset := None;
     kw_path_filter := None;
     kw_parent_path := None;
     kw_parent := None;
     kw_folders_only := None;
     kw_files_only := None;
     kw_attributes := None;
     kw_sort_by := None;
     kw_sort_ascending := None;
     kw_include_name := None;
     kw_include_path := None;
     kw_include_full_path := None;
     kw_include_extension := None;
     kw_include_size := None;
     kw_include_date_created := None;
     kw_include_date_modified := None;
     kw_include_date_accessed := None;
     kw_include_attributes := None;
     kw_timeout := None |}.

Definition kw_with_max_results (m : option Z) (kw : Kwargs) : Kwargs :=
  {| kw_query := kw_query kw;
     kw_regex := kw_regex kw;
     kw_case_sensitive := kw_case_sensitive kw;
     kw_whole_words := kw_whole_words kw;
     kw_match_path := kw_match_path kw;
     kw_match_diacritics := kw_match_diacritics kw;
     kw_max_results := Some m;
     kw_offset := kw_offset kw;
     kw_path_filter := kw_path_filter kw;
     kw_parent_path := kw_parent_path kw;
     kw_parent := kw_parent kw;
     kw_folders_only := kw_folders_only kw;
     kw_files_only := kw_files_only kw;
     kw_attributes := kw_attributes kw;
     kw_sort_by := kw_sort_by kw;
     kw_sort_ascending := kw_sort_ascending kw;
     kw_include_name := kw_include_name kw;
     kw_include_path := kw_include_path kw;
     kw_include_full_path := kw_include_full_path kw;
     kw_include_extension := kw_include_extension kw;
     kw_include_size := kw_include_size kw;
     kw_include_date_created := kw_include_date_created kw;
     kw_include_date_modified := kw_include_date_modified kw;
     kw_include_date_accessed := kw_include_date_accessed kw;
     kw_include_attributes := kw_include_attributes kw;
     kw_timeout := kw_timeout kw |}.

Definition kw_with_regex (b : bool) (kw : Kwargs) : Kwargs :=
  {| kw_query := kw_query kw;
     kw_regex := Some b;
     kw_case_sensitive := kw_case_sensitive kw;
     kw_whole_words := kw_whole_words kw;
     kw_match_path := kw_match_path kw;
     kw_match_diacritics := kw_match_diacritics kw;
     kw_max_results := kw_max_results kw;
     kw_offset := kw_offset kw;
     kw_path_filter := kw_path_filter kw;
     kw_parent_path := kw_parent_path kw;
     kw_parent := kw_parent kw;
     kw_folders_only := kw_folders_only kw;
     kw_files_only := kw_files_only kw;
     kw_attributes := kw_attributes kw;
     kw_sort_by := kw_sort_by kw;
     kw_sort_ascending := kw_sort_ascending kw;
     kw_include_name := kw_include_name kw;
     kw_include_path := kw_include_path kw;
     kw_include_full_path := kw_include_full_path kw;
     kw_include_extension := kw_include_extension kw;
     kw_include_size := kw_include_size kw;
     kw_include_date_created := kw_include_date_created kw;
     kw_include_date_modified := kw_include_date_modified kw;
     kw_include_date_accessed := kw_include_date_accessed kw;
     kw_include_attributes := kw_include_attributes kw;
     kw_timeout := kw_timeout kw |}.

Definition kw_with_folders_only (b : bool) (kw : Kwargs) : Kwargs :=
  {| kw_query := kw_query kw;
     kw_regex := kw_regex kw;
     kw_case_sensitive := kw_case_sensitive kw;
     kw_whole_words := kw_whole_words kw;
     kw_match_path := kw_match_path kw;
     kw_match_diacritics := kw_match_diacritics kw;
     kw_max_results := kw_max_results kw;
     kw_offset := kw_offset kw;
     kw_path_filter := kw_path_filter kw;
     kw_parent_path := kw_parent_path kw;
     kw_parent := kw_parent kw;
     kw_folders_only := Some b;
     kw_files_only := kw_files_only kw;
     kw_attributes := kw_attributes kw;
     kw_sort_by := kw_sort_by kw;
     kw_sort_ascending := kw_sort_ascending kw;
     kw_include_name := kw_include_name kw;
     kw_include_path := kw_include_path kw;
     kw_include_full_path := kw_include_full_path kw;
     kw_include_extension := kw_include_extension kw;
     kw_include_size := kw_include_size kw;
     kw_include_date_created := kw_include_date_created kw;
     kw_include_date_modified := kw_include_date_modified kw;
     kw_include_date_accessed := kw_include_date_accessed kw;
     kw_include_attributes := kw_include_attributes kw;
     kw_timeout := kw_timeout kw |}.

Definition kw_with_include_size (b : bool) (kw : Kwargs) : Kwargs :=
  {| kw_query := kw_query kw;
     kw_regex := kw_regex kw;
     kw_case_sensitive := kw_case_sensitive kw;
     kw_whole_words := kw_whole_words kw;
     kw_match_path := kw_match_path kw;
     kw_match_diacritics := kw_match_diacritics kw;
     kw_max_results := kw_max_results kw;
     kw_offset := kw_offset kw;
     kw_path_filter := kw_path_filter kw;
     kw_parent_path := kw_parent_path kw;
     kw_parent := kw_parent kw;
     kw_folders_only := kw_folders_only kw;
     kw_files_only := kw_files_only kw;
     kw_attributes := kw_attributes kw;
     kw_sort_by := kw_sort_by kw;
     kw_sort_ascending := kw_sort_ascending kw;
     kw_include_name := kw_include_name kw;
     kw_include_path := kw_include_path kw;
     kw_include_full_path := kw_include_full_path kw;
     kw_include_extension := kw_include_extension kw;
     kw_include_size := Some b;
     kw_include_date_created := kw_include_date_created kw;
     kw_include_date_modified := kw_include_date_modified kw;
     kw_include_date_accessed := kw_include_date_accessed kw;
     kw_include_attributes := kw_include_attributes kw;
     kw_timeout := kw_timeout kw |}.

(** The handle the adapters construct. *)
Definition default_handle : EverythingSearch := {| es_path := default_es_path |}.

(** Printable ASCII. *)
Definition printable (c : ascii) : bool := in_range 32 126 c.

(** A configuration that asks for every column. *)
Definition all_columns : QueryConfig :=
  {| query := query defaults;
     regex := regex defaults;
     case_sensitive := case_sensitive defaults;
     whole_words := whole_words defaults;
     match_path := match_path defaults;
     match_diacritics := match_diacritics defaults;
     max_results := max_results defaults;
     offset := offset defaults;
     path_filter := path_filter defaults;
     parent_path := parent_path defaults;
     parent := parent defaults;
     folders_only := folders_only defaults;
     files_only := files_only defaults;
     attributes := attributes defaults;
     sort_by := sort_by defaults;
     sort_ascending := sort_ascending defaults;
     include_name := true;
     include_path := true;
     include_full_path := true;
     include_extension := true;
     include_size := true;
     include_date_created := true;
     include_date_modified := true;
     include_date_accessed := true;
     include_attributes := true;
     timeout := timeout defaults |}.

(** The field names the parser works with: the first record of the trimmed
    text, if there is one. *)
Definition header (csv_output : string) : option (list string) :=
  match fst (Csv.reader_records (split LF (strip csv_output))) with
  | fieldnames :: _ => Some fieldnames
  | [] => None
  end.

(** The superscript two, a digit that is not a decimal digit. *)
Definition superscript_two : string := String (ascii_of_N 178) EmptyString.

(** The tools that run a search. *)
Definition is_search_request (r : Mcp.request) : bool :=
  match r with
  | Mcp.GetResultCount _ | Mcp.GetEverythingVersion => false
  | _ => true
  end.

End Props.

Import Subprocess Dict ES Props.

(** * Properties *)

(** ** Argument builder *)

Section Builder.

Variable self : EverythingSearch.
Variable q : QueryConfig.

Lemma search_cmd_head :
  exists rest,
    search_cmd self q
    = es_path self :: (if regex q then ["-regex"; query q] else [query q]) ++ rest.
Proof.
  unfold search_cmd. simpl. eexists. reflexivity.
Qed.

(** C4. With regex enabled the argument list is the executable, then
    "-regex", then the query string as a token of its own; with regex
    disabled and a non-empty query string, the query string is the token at
    index 1, right after the executable at index 0. *)
Theorem query_token_position :
  (regex q = true ->
     exists rest, search_cmd self q = es_path self :: "-regex" :: query q :: rest)
  /\ (regex q = false -> query q <> "" ->
        nth_error (search_cmd self q) 0 = Some (es_path self)
        /\ nth_error (search_cmd self q) 1 = Some (query q)).
Proof.
  destruct search_cmd_head as [rest Hcmd]. split.
  - intros Hre. rewrite Hre in Hcmd. exists rest. exact Hcmd.
  - intros Hre _. rewrite Hre in Hcmd. rewrite Hcmd. split; reflexivity.
Qed.

End Builder.

Lemma query_token_position_witness :
  (exists rest,
     search_cmd es0 (with_regex true both_filters)
     = "es.exe" :: "-regex" :: "report" :: rest)
  /\ nth_error (search_cmd es0 both_filters) 1 = Some "report".
Proof.
  split.
  - apply (proj1 (query_token_position es0 (with_regex true both_filters))).
    reflexivity.
  - apply (proj2 (query_token_position es0 both_filters)).
    + reflexivity.
    + discriminate.
Defined.


Lemma str_int_not_files_marker (n : Z) : str_int n <> "/a-d".
Proof.
  unfold str_int. destruct (Z.to_int n) as [d | d]; simpl.
  - destruct d; discriminate.
  - discriminate.
Qed.

Lemma length_app (s t : string) :
  String.length (s ++ t) = (String.length s + String.length t)%nat.
Proof. induction s as [| c s IH]; simpl; [reflexivity | now rewrite IH]. Qed.

Lemma append_empty_r (s : string) : s ++ "" = s.
Proof. induction s as [| c s IH]; simpl; [reflexivity | now rewrite IH]. Qed.

Lemma sort_token_not_files_marker (s : string) (q : QueryConfig) :
  s ++ "-" ++ sort_order q <> "/a-d".
Proof.
  intros H. apply (f_equal String.length) in H.
  rewrite !length_app in H.
  unfold sort_order in H. destruct (sort_ascending q); simpl in H; lia.
Qed.

Lemma in_opt (x : string) (b : bool) (tokens : list string) :
  In x (opt b tokens) -> In x tokens.
Proof. destruct b; simpl; tauto. Qed.

Lemma in_opt_str (x : string) (o : option string) (f : string -> list string) :
  In x (opt_str o f) -> exists s, o = Some s /\ In x (f s).
Proof.
  unfold opt_str. destruct o as [s |]; simpl; [| tauto].
  destruct (truthy s); simpl; [| tauto]. intros H. exists s. auto.
Qed.

Ltac literal_tokens H :=
  simpl in H;
  repeat match type of H with
         | _ \/ _ => destruct H as [H | H]
         | False => contradiction
         | _ = _ => try discriminate H
         end.

Section FileTypeFilter.

Variable self : EverythingSearch.
Variable q : QueryConfig.
Hypothesis Hfolders : folders_only q = true.

Lemma file_type_filter_both : file_type_filter q = ["/ad"].
Proof. unfold file_type_filter. rewrite Hfolders. reflexivity. Qed.

Lemma folders_marker_present : In "/ad" (search_cmd self q).
Proof.
  unfold search_cmd. rewrite file_type_filter_both.
  repeat (apply in_or_app; first [ left; simpl; tauto | right ]).
Qed.

Lemma files_marker_origin :
  In "/a-d" (search_cmd self q) ->
  es_path self = "/a-d" \/ query q = "/a-d" \/ path_filter q = Some "/a-d"
  \/ parent_path q = Some "/a-d" \/ parent q = Some "/a-d"
  \/ attributes q = Some "-d".
Proof.
  unfold search_cmd. rewrite file_type_filter_both.
  rewrite !in_app_iff.
  intros H.
  repeat match type of H with
         | _ \/ _ => destruct H as [H | H]
         end;
    try (apply in_opt in H; literal_tokens H; fail).
  - simpl in H. tauto.
  - destruct (regex q); literal_tokens H; tauto.
  - destruct (max_results q); literal_tokens H.
    now apply str_int_not_files_marker in H.
  - apply in_opt in H. literal_tokens H.
    now apply str_int_not_files_marker in H.
  - apply in_opt_str in H. destruct H as [s [Hs H]]. literal_tokens H.
    subst s. tauto.
  - apply in_opt_str in H. destruct H as [s [Hs H]]. literal_tokens H.
    subst s. tauto.
  - apply in_opt_str in H. destruct H as [s [Hs H]]. literal_tokens H.
    subst s. tauto.
  - literal_tokens H.
  - apply in_opt_str in H. destruct H as [s [Hs H]]. literal_tokens H.
    injection H as H. subst s. tauto.
  - apply in_opt_str in H. destruct H as [s [Hs H]]. literal_tokens H.
    now apply sort_token_not_files_marker in H.
  - literal_tokens H.
  - literal_tokens H. now apply str_int_not_files_marker in H.
Qed.

End FileTypeFilter.

(** C5 (amended). With folders-only and files-only both enabled, the
    file-type step contributes the folders-only marker "/ad" alone: the
    argument list contains "/ad", and "/a-d" can occur in it only as a token
    supplied by the caller: the executable path, the query string, a path
    filter, parent path or parent equal to "/a-d", or the attributes filter
    "-d" (rendered with the prefix "/a"). *)
Theorem folders_only_precedence (self : EverythingSearch) (q : QueryConfig) :
  folders_only q = true -> files_only q = true ->
  file_type_filter q = ["/ad"]
  /\ In "/ad" (search_cmd self q)
  /\ (In "/a-d" (search_cmd self q) ->
        es_path self = "/a-d" \/ query q = "/a-d" \/ path_filter q = Some "/a-d"
        \/ parent_path q = Some "/a-d" \/ parent q = Some "/a-d"
        \/ attributes q = Some "-d").
Proof.
  intros Hfolders _.
  split; [exact (file_type_filter_both q Hfolders) |].
  split; [exact (folders_marker_present self q Hfolders) |].
  exact (files_marker_origin self q Hfolders).
Qed.


Lemma folders_only_precedence_witness :
  file_type_filter both_filters = ["/ad"]
  /\ In "/ad" (search_cmd es0 both_filters)
  /\ ~ In "/a-d" (search_cmd es0 both_filters).
Proof.
  destruct (folders_only_precedence es0 both_filters eq_refl eq_refl)
    as [Hstep [Hin Honly]].
  split; [exact Hstep |]. split; [exact Hin |].
  intros H. apply Honly in H.
  repeat match type of H with
         | _ \/ _ => destruct H as [H | H]
         end; discriminate H.
Defined.

(** C5 as stated fails: with both flags enabled and the attributes filter
    "-d", the argument list holds "/ad" and also the token "/a-d". *)
Lemma files_marker_counterexample :
  let q := with_attributes (Some "-d") both_filters in
  folders_only q = true /\ files_only q = true
  /\ ~ (In "/ad" (search_cmd es0 q) /\ ~ In "/a-d" (search_cmd es0 q)).
Proof.
  cbv zeta. split; [reflexivity |]. split; [reflexivity |].
  intros [_ Hnot]. apply Hnot. vm_compute.
  repeat first [ left; reflexivity | right ].
Qed.

(** ** Exceptions of the csv reader and of the result parser *)

Lemma parse_add_char_raises (r : Csv.reader) (c : ascii) (e : exn) :
  Csv.parse_add_char r c = Raise e -> exn_cls e = CsvError.
Proof.
  unfold Csv.parse_add_char.
  destruct (Csv.field_limit <=? Csv.field_len r)%N; intros H; inversion H.
  reflexivity.
Qed.

Lemma bind_raises {A B} (m : result A) (k : A -> result B) (e : exn) :
  Py.bind m k = Raise e ->
  m = Raise e \/ exists a, m = Ok a /\ k a = Raise e.
Proof.
  destruct m as [a | e']; simpl; intros H.
  - right. exists a. auto.
  - left. inversion H. reflexivity.
Qed.

Lemma start_field_raises (r : Csv.reader) (c : option ascii) (e : exn) :
  Csv.start_field r c = Raise e -> exn_cls e = CsvError.
Proof.
  unfold Csv.start_field. destruct c as [ch |]; [| discriminate].
  destruct (Csv.is_newline ch); [discriminate |].
  destruct (Ascii.eqb ch Csv.quotechar); [discriminate |].
  destruct (Ascii.eqb ch Csv.delimiter); [discriminate |].
  intros H. apply bind_raises in H. destruct H as [H | [a [_ H]]].
  - now apply parse_add_char_raises in H.
  - discriminate.
Qed.

Lemma parse_process_char_raises (r : Csv.reader) (c : option ascii) (e : exn) :
  Csv.parse_process_char r c = Raise e -> exn_cls e = CsvError.
Proof.
  unfold Csv.parse_process_char.
  destruct (Csv.st r); destruct c as [ch |]; try discriminate;
    try (apply start_field_raises);
    repeat match goal with
           | |- context [if ?b then _ else _] => destruct b
           end;
    try discriminate;
    try (apply start_field_raises);
    try (apply parse_add_char_raises);
    try (intros H; apply bind_raises in H; destruct H as [H | [a [_ H]]];
         [now apply parse_add_char_raises in H | discriminate]).
  intros H. inversion H. reflexivity.
Qed.

Lemma feed_raises (line : string) (r : Csv.reader) (e : exn) :
  Csv.feed r line = Raise e -> exn_cls e = CsvError.
Proof.
  revert r. induction line as [| c rest IH]; intros r; simpl.
  - apply parse_process_char_raises.
  - intros H. apply bind_raises in H. destruct H as [H | [r' [_ H]]].
    + now apply parse_process_char_raises in H.
    + now apply IH in H.
Qed.

Lemma records_raises (lines : list string) (r : Csv.reader)
  (rs : list (list string)) (e : exn) :
  Csv.records r lines = (rs, Some e) -> exn_cls e = CsvError.
Proof.
  revert r rs. induction lines as [| line rest IH]; intros r rs; simpl.
  - destruct (_ || _); discriminate.
  - destruct (Csv.feed r line) as [r' | e'] eqn:Hfeed.
    + destruct (Csv.state_eqb (Csv.st r') Csv.START_RECORD).
      * destruct (Csv.records Csv.parse_reset rest) as [rs' e'] eqn:Hrest.
        intros H. inversion H. subst. now apply IH in Hrest.
      * apply IH.
    + intros H. inversion H. subst. now apply feed_raises in Hfeed.
Qed.

Lemma rows_raises (lines : list string) (rows : list Dict.t) (e : exn) :
  DictReader.rows lines = (rows, Some e) -> exn_cls e = CsvError.
Proof.
  unfold DictReader.rows, Csv.reader_records.
  destruct (Csv.records Csv.parse_reset lines) as [rs err] eqn:Hrec.
  destruct rs as [| fieldnames rest]; intros H; inversion H; subst;
    now apply records_raises in Hrec.
Qed.

Lemma size_to_int_raises (row : Dict.t) (e : exn) :
  size_to_int row = Raise e ->
  exn_cls e = AttributeError \/ exn_cls e = ValueError.
Proof.
  unfold size_to_int.
  destruct (get Size row) as [[| s | n | l] |]; try discriminate;
    try (intros H; inversion H; auto; fail).
  destruct (isdigit s); [| discriminate].
  destruct (int s); [discriminate |].
  intros H. inversion H. auto.
Qed.

Lemma for_rows_raises (rows : list Dict.t) (err : option exn)
  (acc : list Dict.t) (e : exn) :
  for_rows rows err acc = Raise e ->
  err = Some e \/ exn_cls e = AttributeError \/ exn_cls e = ValueError.
Proof.
  revert acc. induction rows as [| row rest IH]; intros acc; simpl.
  - destruct err; intros H; inversion H. auto.
  - intros H. apply bind_raises in H. destruct H as [H | [row' [_ H]]].
    + right. now apply size_to_int_raises in H.
    + now apply IH in H.
Qed.

(** The parser raises nothing but the attribute error of a missing "Size",
    the value error of a digit string that is not a number, and the errors of
    the csv reader. *)
Lemma parse_csv_output_raises (s : string) (e : exn) :
  _parse_csv_output s = Raise e ->
  exn_cls e = AttributeError \/ exn_cls e = ValueError \/ exn_cls e = CsvError.
Proof.
  unfold _parse_csv_output.
  destruct (negb (truthy (strip s))); [discriminate |].
  destruct (List.length (split LF (strip s)) <? 2)%nat; [discriminate |].
  destruct (DictReader.rows (split LF (strip s))) as [rows err] eqn:Hrows.
  intros H. apply for_rows_raises in H. destruct H as [H | [H | H]]; auto.
  subst err. apply rows_raises in Hrows. auto.
Qed.

(** ** Running the external process *)

Lemma run_without_timeout (w : World) (cmd : list string) :
  run w cmd None
  = match process w cmd with
    | Exits _ code out err =>
        Ok {| returncode := code; stdout := out; stderr := err |}
    | Fails l msg => Raise (Exn (launch_class l) msg)
    end.
Proof. unfold run. destruct (process w cmd); reflexivity. Qed.

Lemma run_without_timeout_raises (w : World) (cmd : list string) (e : exn) :
  run w cmd None = Raise e -> is_class TimeoutExpired e = false.
Proof.
  rewrite run_without_timeout. destruct (process w cmd) as [t c o er | l msg].
  - discriminate.
  - intros H. inversion H. destruct l; reflexivity.
Qed.

(** [search] never raises the timeout error: the run is started without a
    time limit, so the handler for an expired run is never entered. *)
Lemma search_no_timeout_error (w : World) (self : EverythingSearch)
  (q : QueryConfig) (msg : string) :
  search w self q <> Raise (Exn TimeoutError msg).
Proof.
  unfold search, try_except.
  destruct (run w (search_cmd self q) None) as [cp | e] eqn:Hrun;
    unfold Py.bind.
  - destruct (negb (returncode cp =? 0)).
    + unfold is_class. simpl. discriminate.
    + destruct (_parse_csv_output (stdout cp)) as [rows | e] eqn:Hparse.
      * discriminate.
      * apply parse_csv_output_raises in Hparse.
        destruct e as [cls m]. simpl in Hparse.
        destruct Hparse as [H | [H | H]]; subst cls; discriminate.
  - apply run_without_timeout_raises in Hrun. rewrite Hrun. discriminate.
Qed.

(** C1 (evaluation of the code where the claim fails). A run that takes
    60000 ms under a configured timeout of 5000 ms is waited for and its
    output is parsed and returned; no timeout error is raised, here or on any
    other input. *)
Theorem search_overrun_not_reported :
  timeout defaults = 5000
  /\ process (host 60000 0 csv_two_columns "") (search_cmd es0 defaults)
     = Exits 60000 0 csv_two_columns ""
  /\ search (host 60000 0 csv_two_columns "") es0 defaults
     = Ok [[(KStr "Filename", VStr "test.txt"); (Size, VInt 1024)];
           [(KStr "Filename", VStr "example.py"); (Size, VStr "abc")]]
  /\ (forall w self q msg, search w self q <> Raise (Exn TimeoutError msg)).
Proof.
  split; [reflexivity |]. split; [reflexivity |]. split; [vm_compute; reflexivity |].
  exact search_no_timeout_error.
Qed.

(** C2. When the process exits with a non-zero code, [search] raises a
    [RuntimeError] whose message contains the captured standard error, and
    it returns no result list. *)
Theorem search_nonzero_exit (w : World) (self : EverythingSearch)
  (q : QueryConfig) (elapsed code : Z) (out err : string) :
  process w (search_cmd self q) = Exits elapsed code out err ->
  code <> 0 ->
  exists msg,
    search w self q = Raise (Exn RuntimeError msg)
    /\ contains err msg
    /\ (forall rows, search w self q <> Ok rows).
Proof.
  intros Hproc Hcode.
  exists ("Error executing search: " ++ "Everything Search failed: " ++ err).
  assert (Hsearch : search w self q
            = Raise (Exn RuntimeError
                 ("Error executing search: " ++ "Everything Search failed: " ++ err))).
  { unfold search. rewrite run_without_timeout, Hproc. simpl.
    apply Z.eqb_neq in Hcode. rewrite Hcode. reflexivity. }
  split; [exact Hsearch |]. split.
  - exists "Error executing search: Everything Search failed: ", "".
    rewrite append_empty_r. reflexivity.
  - intros rows. rewrite Hsearch. discriminate.
Qed.

Lemma search_nonzero_exit_witness :
  exists msg,
    search (host 10 1 "" "boom") es0 defaults = Raise (Exn RuntimeError msg)
    /\ contains "boom" msg
    /\ (forall rows, search (host 10 1 "" "boom") es0 defaults <> Ok rows).
Proof.
  apply (search_nonzero_exit (host 10 1 "" "boom") es0 defaults 10 1 "" "boom").
  - reflexivity.
  - discriminate.
Defined.

(** C7. [get_result_count] always returns an integer and never raises:
    the standard output parsed by [int] when the process exits with code 0
    and the output parses, and 0 when the output does not parse, when the
    exit code is not 0, and when the process cannot be run. *)
Theorem get_result_count_never_raises (w : World) (self : EverythingSearch)
  (qs : string) :
  let cmd := [es_path self; "-get-result-count"; qs] in
  (exists n, get_result_count w self qs = Ok n)
  /\ (forall elapsed out err n,
        process w cmd = Exits elapsed 0 out err -> int (strip out) = Some n ->
        get_result_count w self qs = Ok n)
  /\ (forall elapsed out err,
        process w cmd = Exits elapsed 0 out err -> int (strip out) = None ->
        get_result_count w self qs = Ok 0)
  /\ (forall elapsed code out err,
        process w cmd = Exits elapsed code out err -> code <> 0 ->
        get_result_count w self qs = Ok 0)
  /\ (forall l msg,
        process w cmd = Fails l msg -> get_result_count w self qs = Ok 0).
Proof.
  cbv zeta. unfold get_result_count. rewrite run_without_timeout.
  destruct (process w [es_path self; "-get-result-count"; qs])
    as [t code out err | l msg] eqn:Hproc; simpl.
  - destruct (code =? 0) eqn:Hcode.
    + apply Z.eqb_eq in Hcode. subst code.
      destruct (int (strip out)) as [n |] eqn:Hint; simpl.
      * split; [now exists n |].
        split; [intros ? ? ? ? H Hn; inversion H; subst; congruence |].
        split; [intros ? ? ? H Hn; inversion H; subst; congruence |].
        split; [intros ? ? ? ? H Hc; inversion H; subst; contradiction |].
        intros ? ? H; discriminate H.
      * split; [now exists 0 |].
        split; [intros ? ? ? ? H Hn; inversion H; subst; congruence |].
        split; [reflexivity |].
        split; [reflexivity |].
        intros ? ? H; discriminate H.
    + apply Z.eqb_neq in Hcode. simpl.
      split; [now exists 0 |].
      split; [intros ? ? ? ? H Hn; inversion H; subst; contradiction |].
      split; [reflexivity |].
      split; [reflexivity |].
      intros ? ? H; discriminate H.
  - split; [now exists 0 |].
    split; [intros ? ? ? ? H; discriminate H |].
    split; [intros ? ? ? H; discriminate H |].
    split; [intros ? ? ? ? H; discriminate H |].
    reflexivity.
Qed.

Lemma get_result_count_never_raises_witness :
  get_result_count (host 10 0 ("42" ++ nl) "") es0 "*.txt" = Ok 42
  /\ get_result_count (host 10 0 "no results" "") es0 "*.txt" = Ok 0
  /\ get_result_count (host 10 8 "42" "IPC error") es0 "*.txt" = Ok 0
  /\ get_result_count bare_host es0 "*.txt" = Ok 0.
Proof.
  split; [| split; [| split]].
  - apply (proj1 (proj2 (get_result_count_never_raises
                           (host 10 0 ("42" ++ nl) "") es0 "*.txt"))
             10 ("42" ++ nl) "" 42); reflexivity.
  - apply (proj1 (proj2 (proj2 (get_result_count_never_raises
                                  (host 10 0 "no results" "") es0 "*.txt")))
             10 "no results" ""); reflexivity.
  - apply (proj1 (proj2 (proj2 (proj2 (get_result_count_never_raises
                                         (host 10 8 "42" "IPC error") es0 "*.txt"))))
             10 8 "42" "IPC error"); [reflexivity | discriminate].
  - apply (proj2 (proj2 (proj2 (proj2 (get_result_count_never_raises
                                         bare_host es0 "*.txt"))))
             NoSuchFile "[Errno 2] No such file or directory"); reflexivity.
Defined.

(** C10. Whenever the run of the version command returns a result,
    [get_version] returns the trimmed standard output, whatever the exit
    code: the code is not looked at and no error is raised for a non-zero
    one. *)
Theorem get_version_ignores_exit_code (w : World) (self : EverythingSearch)
  (cp : CompletedProcess) :
  run w [es_path self; "-version"] None = Ok cp ->
  get_version w self = Ok (strip (stdout cp)).
Proof.
  intros Hrun. unfold get_version. rewrite Hrun. reflexivity.
Qed.

Lemma get_version_ignores_exit_code_witness :
  get_version (host 10 1 ("1.1.0.30" ++ nl) "failure") es0 = Ok "1.1.0.30".
Proof.
  apply (get_version_ignores_exit_code (host 10 1 ("1.1.0.30" ++ nl) "failure") es0
           {| returncode := 1; stdout := "1.1.0.30" ++ nl; stderr := "failure" |}).
  reflexivity.
Defined.

(** ** Result parser *)

Lemma lstrip_blank (s : string) : all_chars isspace s = true -> lstrip s = "".
Proof.
  induction s as [| c r IH]; simpl; [reflexivity |].
  intros H. apply andb_prop in H. destruct H as [Hc Hr].
  rewrite Hc. auto.
Qed.

Lemma strip_blank (s : string) : all_chars isspace s = true -> strip s = "".
Proof. intros H. unfold strip. now rewrite lstrip_blank. Qed.

(** C6. Text that is empty, or consists of whitespace only, or has fewer
    than two lines once trimmed, parses to the empty result list; nothing
    is raised. *)
Theorem parse_blank_output (s : string) :
  s = "" \/ all_chars isspace s = true
  \/ (List.length (split LF (strip s)) < 2)%nat ->
  _parse_csv_output s = Ok [].
Proof.
  intros [H | [H | H]]; unfold _parse_csv_output.
  - subst s. reflexivity.
  - rewrite (strip_blank s H). reflexivity.
  - destruct (negb (truthy (strip s))); [reflexivity |].
    apply Nat.ltb_lt in H. rewrite H. reflexivity.
Qed.

Lemma parse_blank_output_witness :
  _parse_csv_output "" = Ok []
  /\ _parse_csv_output ("  " ++ nl ++ String (ascii_of_N 9) " ") = Ok []
  /\ _parse_csv_output (" Filename,Size " ++ nl) = Ok [].
Proof.
  split; [| split].
  - apply (parse_blank_output ""). left. reflexivity.
  - apply (parse_blank_output ("  " ++ nl ++ String (ascii_of_N 9) " ")).
    right. left. reflexivity.
  - apply (parse_blank_output (" Filename,Size " ++ nl)).
    right. right. vm_compute. apply le_n.
Defined.

(** C9. The two-line text "Filename,Size" / "test.txt" is well delimited,
    its header has the column "Size" and its data row has one field for two
    columns; the DictReader fills "Size" with [None], the digit test is
    invoked on it, and the parser raises an attribute error. *)
Theorem ragged_size_row_raises :
  Csv.reader_records (split LF (strip csv_ragged))
  = ([["Filename"; "Size"]; ["test.txt"]], None)
  /\ get Size (DictReader.make_row ["Filename"; "Size"] ["test.txt"]) = Some VNone
  /\ _parse_csv_output csv_ragged
     = Raise (Exn AttributeError "'NoneType' object has no attribute 'isdigit'").
Proof.
  split; [vm_compute; reflexivity |].
  split; vm_compute; reflexivity.
Qed.

(** *** Dictionaries *)

Lemma key_eqb_eq (a b : key) : key_eqb a b = true <-> a = b.
Proof.
  destruct a as [| x], b as [| y]; simpl; split; intros H;
    try reflexivity; try discriminate.
  - apply String.eqb_eq in H. now subst.
  - inversion H. apply String.eqb_refl.
Qed.

Lemma key_eqb_neq (a b : key) : key_eqb a b = false <-> a <> b.
Proof.
  split.
  - intros H Heq. apply key_eqb_eq in Heq. congruence.
  - intros H. destruct (key_eqb a b) eqn:E; [| reflexivity].
    apply key_eqb_eq in E. contradiction.
Qed.

Lemma get_set_same (k : key) (v : value) (d : Dict.t) :
  get k (set k v d) = Some v.
Proof.
  induction d as [| [k' v'] rest IH]; simpl.
  - replace (key_eqb k k) with true; [reflexivity |].
    symmetry. now apply key_eqb_eq.
  - destruct (key_eqb k k') eqn:E; simpl; rewrite E; [reflexivity | exact IH].
Qed.

Lemma get_set_other (k k' : key) (v : value) (d : Dict.t) :
  k <> k' -> get k (set k' v d) = get k d.
Proof.
  intros Hne. apply key_eqb_neq in Hne.
  induction d as [| [k0 v0] rest IH]; simpl.
  - now rewrite Hne.
  - destruct (key_eqb k' k0) eqn:E; simpl.
    + apply key_eqb_eq in E. subst k0. now rewrite Hne.
    + now rewrite IH.
Qed.









(** *** Digit strings and [int] *)

Ltac by_char c H :=
  destruct c as [[] [] [] [] [] [] [] []];
  vm_compute in H; try discriminate H; vm_compute; auto.


Lemma digit_not_blank (c : ascii) : isdigit_char c = true -> int_blank c = false.
Proof. intros H. by_char c H. Qed.

Lemma digit_not_underscore (c : ascii) :
  isdigit_char c = true -> isdecimal_char c = false -> Ascii.eqb c "_" = false.
Proof. intros H _. by_char c H. Qed.



Lemma skip_blank_digits (s : string) :
  all_chars isdigit_char s = true -> skip_blank s = s.
Proof.
  destruct s as [| c r]; simpl; [reflexivity |].
  intros H. apply andb_prop in H. destruct H as [Hc _].
  now rewrite (digit_not_blank c Hc).
Qed.

Lemma drop_blank_end_digits (s : string) :
  all_chars isdigit_char s = true -> drop_blank_end s = s.
Proof.
  induction s as [| c r IH]; simpl; [reflexivity |].
  intros H. apply andb_prop in H. destruct H as [Hc Hr].
  rewrite (IH Hr). destruct r; [| reflexivity].
  now rewrite (digit_not_blank c Hc).
Qed.

Lemma int_of_digits (s : string) :
  all_chars isdigit_char s = true -> int s = int_digits 0 false s.
Proof.
  intros H. unfold int.
  rewrite (skip_blank_digits s H), (drop_blank_end_digits s H).
  destruct s as [| c r]; [reflexivity |].
  simpl in H. apply andb_prop in H. destruct H as [Hc _].
  destruct c as [[] [] [] [] [] [] [] []];
    vm_compute in Hc; try discriminate Hc; reflexivity.
Qed.


Lemma int_digits_not_decimal (s : string) (acc : Z) (prev : bool) :
  all_chars isdigit_char s = true -> all_chars isdecimal_char s = false ->
  int_digits acc prev s = None.
Proof.
  revert acc prev. induction s as [| c r IH]; intros acc prev Hdig Hdec; simpl.
  - discriminate.
  - simpl in Hdig, Hdec. apply andb_prop in Hdig. destruct Hdig as [Hc Hr].
    destruct (isdecimal_char c) eqn:Edec.
    + apply IH; auto.
    + now rewrite (digit_not_underscore c Hc Edec).
Qed.


(** A string that passes [isdigit] without being made of decimal digits is
    rejected by [int]. *)
Lemma int_digit_not_decimal (s : string) :
  isdigit s = true -> isdecimal s = false -> int s = None.
Proof.
  unfold isdigit, isdecimal. intros H Hdec. apply andb_prop in H.
  destruct H as [Hne Hall]. rewrite Hne in Hdec. simpl in Hdec.
  rewrite (int_of_digits s Hall). now apply int_digits_not_decimal.
Qed.

(** *** The conversion of the column "Size" *)






(** ** Tool adapters *)

Lemma error_object_text (msg : string) :
  Json.dumps None (Json.error_object msg)
  = "{" ++ Json.encode_str "error" ++ ": " ++ Json.encode_str msg ++ "}".
Proof.
  unfold Json.dumps, Json.error_object. simpl. reflexivity.
Qed.

Lemma guarded_returns (w : World) (g : Mcp.global)
  (body : EverythingSearch -> result string) :
  fst (Mcp.guarded w g body)
  = match fst (Mcp.get_everything_search w g) with
    | Raise e => Ok (Json.dumps None (Json.error_object (exn_str e)))
    | Ok es =>
        match body es with
        | Ok t => Ok t
        | Raise e => Ok (Json.dumps None (Json.error_object (exn_str e)))
        end
    end.
Proof.
  unfold Mcp.guarded.
  destruct (Mcp.get_everything_search w g) as [[es | e] g']; simpl.
  - destruct (body es); reflexivity.
  - reflexivity.
Qed.




(** * Further properties of the argument builder *)

Lemma ends_app (a b t : list string) :
  (exists pre, b = (pre ++ t)%list) -> exists pre, (a ++ b)%list = (pre ++ t)%list.
Proof.
  intros [pre H]. exists (a ++ pre)%list. rewrite H. apply app_assoc.
Qed.

Lemma followed_head (x y : string) (b : list string) :
  followed_by x y ([x; y] ++ b)%list.
Proof. exists [], b. reflexivity. Qed.

Lemma followed_app_r (x y : string) (a b : list string) :
  followed_by x y b -> followed_by x y (a ++ b)%list.
Proof.
  intros [pre [post H]]. exists (a ++ pre)%list, post. rewrite H.
  apply app_assoc.
Qed.

Ltac find_pair :=
  repeat first [ solve [apply followed_head] | apply followed_app_r ].

Ltac find_token :=
  repeat (apply in_or_app; first [ left; simpl; tauto | right ]).

Lemma search_cmd_tail (self : EverythingSearch) (q : QueryConfig) :
  exists pre,
    search_cmd self q = (pre ++ ["-csv"; "-timeout"; str_int (timeout q)])%list.
Proof.
  unfold search_cmd.
  repeat first [ solve [exists []; reflexivity] | apply ends_app ].
Qed.

(** The argument list always ends with the output format and the timeout:
    "-csv", "-timeout" and the configured timeout in decimal, whatever the
    other parameters are; and it starts with the executable. *)
Theorem search_cmd_ends_with_timeout (self : EverythingSearch) (q : QueryConfig) :
  exists middle,
    search_cmd self q
    = (es_path self :: middle ++ ["-csv"; "-timeout"; str_int (timeout q)])%list.
Proof.
  unfold search_cmd.
  assert (H : forall a b : list string,
             (exists pre, b = (pre ++ ["-csv"; "-timeout"; str_int (timeout q)])%list) ->
             exists pre, (a ++ b)%list
                         = (pre ++ ["-csv"; "-timeout"; str_int (timeout q)])%list)
    by (intros a b; apply ends_app).
  match goal with
  | |- exists middle, ([?e] ++ ?rest)%list = _ =>
      assert (Hrest : exists pre,
                 rest = (pre ++ ["-csv"; "-timeout"; str_int (timeout q)])%list)
  end.
  { repeat first [ solve [exists []; reflexivity] | apply ends_app ]. }
  destruct Hrest as [pre Hpre]. exists pre. rewrite Hpre. reflexivity.
Qed.

Lemma opt_length (b : bool) (tokens : list string) :
  (List.length (opt b tokens) <= List.length tokens)%nat.
Proof. destruct b; simpl; lia. Qed.

Lemma opt_str_length (o : option string) (f : string -> list string) (n : nat) :
  (forall s, List.length (f s) <= n)%nat -> (List.length (opt_str o f) <= n)%nat.
Proof.
  intros H. unfold opt_str. destruct o as [s |]; simpl; [| lia].
  destruct (truthy s); simpl; [apply H | lia].
Qed.

(** The argument list has at least 5 tokens (executable, query, "-csv",
    "-timeout", value) and at most 33. *)
Theorem search_cmd_length (self : EverythingSearch) (q : QueryConfig) :
  (5 <= List.length (search_cmd self q) <= 33)%nat.
Proof.
  unfold search_cmd. rewrite !List.length_app.
  pose proof (opt_length (case_sensitive q) ["-case"]).
  pose proof (opt_length (whole_words q) ["-whole-words"]).
  pose proof (opt_length (match_path q) ["-match-path"]).
  pose proof (opt_length (match_diacritics q) ["-diacritics"]).
  pose proof (opt_length (0 <? offset q) ["-offset"; str_int (offset q)]).
  pose proof (opt_str_length (path_filter q) (fun s => ["-path"; s]) 2
                ltac:(intros; simpl; lia)).
  pose proof (opt_str_length (parent_path q) (fun s => ["-parent-path"; s]) 2
                ltac:(intros; simpl; lia)).
  pose proof (opt_str_length (parent q) (fun s => ["-parent"; s]) 2
                ltac:(intros; simpl; lia)).
  pose proof (opt_str_length (attributes q) (fun s => ["/a" ++ s]) 1
                ltac:(intros; simpl; lia)).
  pose proof (opt_str_length (sort_by q)
                (fun s => ["-sort"; s ++ "-" ++ sort_order q]) 2
                ltac:(intros; simpl; lia)).
  pose proof (opt_length (include_name q) ["-name"]).
  pose proof (opt_length (include_path q) ["-path-column"]).
  pose proof (opt_length (include_full_path q) ["-full-path-and-name"]).
  pose proof (opt_length (include_extension q) ["-extension"]).
  pose proof (opt_length (include_size q) ["-size"]).
  pose proof (opt_length (include_date_created q) ["-date-created"]).
  pose proof (opt_length (include_date_modified q) ["-date-modified"]).
  pose proof (opt_length (include_date_accessed q) ["-date-accessed"]).
  pose proof (opt_length (include_attributes q) ["-attributes"]).
  assert (Hft : (List.length (file_type_filter q) <= 1)%nat).
  { unfold file_type_filter.
    destruct (folders_only q); [simpl; lia |].
    destruct (files_only q); simpl; lia. }
  assert (Hq : (1 <= List.length (if regex q then ["-regex"; query q] else [query q])
                <= 2)%nat).
  { destruct (regex q); simpl; lia. }
  assert (Hm : (List.length match max_results q with
                            | Some n => ["-max-results"; str_int n]
                            | None => []
                            end <= 2)%nat).
  { destruct (max_results q); simpl; lia. }
  simpl List.length in *. lia.
Qed.

Lemma opt_str_absent_if_empty (o : option string) (f : string -> list string) :
  opt_str (absent_if_empty o) f = opt_str o f.
Proof.
  unfold opt_str, absent_if_empty. destruct o as [s |]; [| reflexivity].
  destruct (truthy s) eqn:E; [now rewrite E | reflexivity].
Qed.

(** An optional string given as the empty string counts as not given: for
    the path filter, parent path, parent, attributes and sort field,
    replacing "" by [None] leaves the argument list unchanged. *)
Theorem empty_filters_are_absent (self : EverythingSearch) (q : QueryConfig) :
  search_cmd self (drop_empty q) = search_cmd self q.
Proof.
  unfold search_cmd, drop_empty, file_type_filter, sort_order. simpl.
  now rewrite !opt_str_absent_if_empty.
Qed.

Lemma max_results_pair (self : EverythingSearch) (q : QueryConfig) (n : Z) :
  max_results q = Some n ->
  followed_by "-max-results" (str_int n) (search_cmd self q).
Proof.
  intros H. unfold search_cmd. rewrite H. find_pair.
Qed.

(** A maximum number of results is passed on whenever it is given, also 0
    and negative values: "-max-results" is directly followed by the number. *)
Theorem max_results_always_passed (self : EverythingSearch) (q : QueryConfig)
  (n : Z) :
  max_results q = Some n ->
  followed_by "-max-results" (str_int n) (search_cmd self q).
Proof.
  intros H. unfold search_cmd. rewrite H.
  repeat first [ solve [apply followed_head] | apply followed_app_r ].
Qed.

Lemma max_results_always_passed_witness :
  followed_by "-max-results" "0"
    (search_cmd es0 (with_max_results (Some 0) defaults)).
Proof.
  apply (max_results_always_passed es0 (with_max_results (Some 0) defaults) 0).
  reflexivity.
Defined.

(** An offset is passed on only when it is positive: then "-offset" is
    directly followed by the number; an offset of 0 or less gives the same
    argument list as offset 0. *)
Theorem offset_only_when_positive (self : EverythingSearch) (q : QueryConfig) :
  (0 < offset q -> followed_by "-offset" (str_int (offset q)) (search_cmd self q))
  /\ (offset q <= 0 -> search_cmd self q = search_cmd self (with_offset 0 q)).
Proof.
  split; intros H.
  - apply Z.ltb_lt in H. unfold search_cmd. rewrite H. unfold opt. find_pair.
  - assert (E : (0 <? offset q) = false) by (apply Z.ltb_ge; exact H).
    unfold search_cmd, with_offset, file_type_filter, sort_order. simpl.
    now rewrite E.
Qed.

Lemma offset_only_when_positive_witness :
  followed_by "-offset" "40" (search_cmd es0 (with_offset 40 defaults))
  /\ search_cmd es0 (with_offset (-3) defaults)
     = search_cmd es0 (with_offset 0 (with_offset (-3) defaults)).
Proof.
  split.
  - apply (proj1 (offset_only_when_positive es0 (with_offset 40 defaults))).
    reflexivity.
  - apply (proj2 (offset_only_when_positive es0 (with_offset (-3) defaults))).
    discriminate.
Defined.

(** A non-empty sort field gives "-sort" directly followed by the field
    name joined to "ascending" or "descending" by a hyphen, as the
    sort-ascending flag says. *)
Theorem sort_token (self : EverythingSearch) (q : QueryConfig) (s : string) :
  sort_by q = Some s -> s <> "" ->
  followed_by "-sort"
    (s ++ (if sort_ascending q then "-ascending" else "-descending"))
    (search_cmd self q).
Proof.
  intros H Hne. unfold search_cmd. rewrite H. unfold opt_str.
  assert (Ht : truthy s = true) by (destruct s; [contradiction | reflexivity]).
  rewrite Ht. unfold sort_order.
  destruct (sort_ascending q); find_pair.
Qed.

Lemma sort_token_witness :
  followed_by "-sort" "size-ascending"
    (search_cmd es0 (with_sort_by (Some "size") defaults)).
Proof.
  apply (sort_token es0 (with_sort_by (Some "size") defaults) "size").
  - reflexivity.
  - discriminate.
Defined.

(** Every include flag that is set puts its own token into the argument
    list, whatever the other parameters are. *)
Theorem include_flags_present (self : EverythingSearch) (q : QueryConfig) :
  (include_name q = true -> In "-name" (search_cmd self q))
  /\ (include_path q = true -> In "-path-column" (search_cmd self q))
  /\ (include_full_path q = true -> In "-full-path-and-name" (search_cmd self q))
  /\ (include_extension q = true -> In "-extension" (search_cmd self q))
  /\ (include_size q = true -> In "-size" (search_cmd self q))
  /\ (include_date_created q = true -> In "-date-created" (search_cmd self q))
  /\ (include_date_modified q = true -> In "-date-modified" (search_cmd self q))
  /\ (include_date_accessed q = true -> In "-date-accessed" (search_cmd self q))
  /\ (include_attributes q = true -> In "-attributes" (search_cmd self q)).
Proof.
  repeat split; intros H; unfold search_cmd; rewrite H; find_token.
Qed.

Lemma include_flags_present_witness :
  In "-name" (search_cmd es0 all_columns)
  /\ In "-size" (search_cmd es0 all_columns)
  /\ In "-attributes" (search_cmd es0 all_columns).
Proof.
  pose proof (include_flags_present es0 all_columns) as H.
  split; [| split].
  - apply (proj1 H). reflexivity.
  - apply (proj1 (proj2 (proj2 (proj2 (proj2 H))))). reflexivity.
  - apply (proj2 (proj2 (proj2 (proj2 (proj2 (proj2 (proj2 (proj2 H)))))))).
    reflexivity.
Defined.

(** * Further properties of the result parser *)

Lemma lstrip_app_blank (pre t : string) :
  all_chars isspace pre = true -> lstrip (pre ++ t) = lstrip t.
Proof.
  induction pre as [| c r IH]; simpl; [reflexivity |].
  intros H. apply andb_prop in H. destruct H as [Hc Hr]. now rewrite Hc, IH.
Qed.

Lemma rstrip_blank (post : string) : all_chars isspace post = true -> rstrip post = "".
Proof.
  induction post as [| c r IH]; simpl; [reflexivity |].
  intros H. apply andb_prop in H. destruct H as [Hc Hr]. now rewrite IH, Hc.
Qed.

Lemma rstrip_app_blank (t post : string) :
  all_chars isspace post = true -> rstrip (t ++ post) = rstrip t.
Proof.
  intros H. induction t as [| c r IH]; simpl.
  - now apply rstrip_blank.
  - now rewrite IH.
Qed.

Lemma lstrip_app (s t : string) :
  lstrip (s ++ t) = if all_chars isspace s then lstrip t else lstrip s ++ t.
Proof.
  induction s as [| c r IH]; simpl; [reflexivity |].
  destruct (isspace c); simpl; [exact IH | reflexivity].
Qed.

Lemma strip_surrounded (pre s post : string) :
  all_chars isspace pre = true -> all_chars isspace post = true ->
  strip (pre ++ s ++ post) = strip s.
Proof.
  intros Hpre Hpost. unfold strip.
  rewrite (lstrip_app_blank pre _ Hpre), lstrip_app.
  destruct (all_chars isspace s) eqn:Hs.
  - now rewrite (lstrip_blank post Hpost), (lstrip_blank s Hs).
  - now apply rstrip_app_blank.
Qed.

(** Whitespace around the output does not matter: text with any blank
    prefix and suffix (spaces, tabs, line breaks) parses exactly as the text
    without them, results and errors alike. *)
Theorem parse_ignores_surrounding_blanks (pre s post : string) :
  all_chars isspace pre = true -> all_chars isspace post = true ->
  _parse_csv_output (pre ++ s ++ post) = _parse_csv_output s.
Proof.
  intros Hpre Hpost. unfold _parse_csv_output.
  now rewrite (strip_surrounded pre s post Hpre Hpost).
Qed.

Lemma parse_ignores_surrounding_blanks_witness :
  _parse_csv_output ((nl ++ "  ") ++ csv_two_columns ++ (String CR nl))
  = _parse_csv_output csv_two_columns.
Proof.
  apply (parse_ignores_surrounding_blanks (nl ++ "  ") csv_two_columns
           (String CR nl)); reflexivity.
Defined.

Lemma fill_keeps_none (k : string) (ks : list string) (d : Dict.t) :
  get (KStr k) d = Some VNone ->
  get (KStr k) (fold_left (fun d k => set (KStr k) VNone d) ks d) = Some VNone.
Proof.
  revert d. induction ks as [| k0 rest IH]; intros d H; simpl; [exact H |].
  apply IH. destruct (key_eqb (KStr k) (KStr k0)) eqn:E.
  - apply key_eqb_eq in E. rewrite <- E. apply get_set_same.
  - apply key_eqb_neq in E. now rewrite get_set_other.
Qed.

Lemma fill_get (k : string) (ks : list string) (d : Dict.t) :
  In k ks ->
  get (KStr k) (fold_left (fun d k => set (KStr k) VNone d) ks d) = Some VNone.
Proof.
  revert d. induction ks as [| k0 rest IH]; intros d Hin; simpl; [contradiction |].
  destruct Hin as [Heq | Hin].
  - subst k0. apply fill_keeps_none. apply get_set_same.
  - now apply IH.
Qed.

Lemma make_row_missing (fieldnames row : list string) (k : string) :
  In k (skipn (List.length row) fieldnames) ->
  get (KStr k) (DictReader.make_row fieldnames row) = Some VNone.
Proof.
  intros Hin. unfold DictReader.make_row.
  assert (Hlen : (List.length row < List.length fieldnames)%nat).
  { destruct (Nat.lt_ge_cases (List.length row) (List.length fieldnames))
      as [Hlt | Hge]; [exact Hlt |].
    rewrite (skipn_all2 fieldnames Hge) in Hin. contradiction. }
  assert (E1 : (List.length fieldnames <? List.length row)%nat = false)
    by (apply Nat.ltb_ge; lia).
  assert (E2 : (List.length row <? List.length fieldnames)%nat = true)
    by (apply Nat.ltb_lt; exact Hlen).
  rewrite E1, E2. now apply fill_get.
Qed.

(** A short row under a header with "Size": whenever the column "Size"
    lies beyond the fields the row has, the DictReader fills it with [None]
    and the conversion step raises an attribute error instead of passing
    the row on. *)
Theorem short_row_without_size_raises (fieldnames row : list string) :
  In "Size" (skipn (List.length row) fieldnames) ->
  get Size (DictReader.make_row fieldnames row) = Some VNone
  /\ size_to_int (DictReader.make_row fieldnames row)
     = Raise (Exn AttributeError "'NoneType' object has no attribute 'isdigit'").
Proof.
  intros Hin. pose proof (make_row_missing fieldnames row "Size" Hin) as Hget.
  split; [exact Hget |]. unfold size_to_int. unfold Size in *.
  now rewrite Hget.
Qed.

Lemma short_row_without_size_raises_witness :
  get Size (DictReader.make_row ["Name"; "Path"; "Size"] ["a.txt"]) = Some VNone
  /\ size_to_int (DictReader.make_row ["Name"; "Path"; "Size"] ["a.txt"])
     = Raise (Exn AttributeError "'NoneType' object has no attribute 'isdigit'").
Proof.
  apply (short_row_without_size_raises ["Name"; "Path"; "Size"] ["a.txt"]).
  simpl. tauto.
Defined.

(** A "Size" that passes the digit test without being a decimal number
    (superscript digits) is not kept as a string: the conversion raises a
    value error that names the text. *)
Theorem size_of_other_digits_raises (row : Dict.t) (s : string) :
  get Size row = Some (VStr s) -> isdigit s = true -> isdecimal s = false ->
  size_to_int row
  = Raise (Exn ValueError ("invalid literal for int() with base 10: '" ++ s ++ "'")).
Proof.
  intros Hget Hdigit Hdec. unfold size_to_int.
  now rewrite Hget, Hdigit, (int_digit_not_decimal s Hdigit Hdec).
Qed.

Lemma size_of_other_digits_raises_witness :
  size_to_int [(KStr "Filename", VStr "a.txt"); (Size, VStr superscript_two)]
  = Raise (Exn ValueError
             ("invalid literal for int() with base 10: '" ++ superscript_two ++ "'")).
Proof.
  apply (size_of_other_digits_raises
           [(KStr "Filename", VStr "a.txt"); (Size, VStr superscript_two)]
           superscript_two); reflexivity.
Defined.

Lemma set_keeps_absent (k k' : key) (v : value) (d : Dict.t) :
  k <> k' -> get k d = None -> get k (set k' v d) = None.
Proof. intros Hne H. now rewrite get_set_other. Qed.

Lemma of_pairs_absent (k : string) (ks row : list string) (d : Dict.t) :
  ~ In k ks -> get (KStr k) d = None ->
  get (KStr k)
    (fold_left (fun d kv => set (fst kv) (snd kv) d)
       (combine (map KStr ks) (map VStr row)) d) = None.
Proof.
  revert row d. induction ks as [| k0 rest IH]; intros row d Hnin Hd; simpl;
    [exact Hd |].
  destruct row as [| x row]; simpl; [exact Hd |].
  apply IH.
  - intros Hin. apply Hnin. now right.
  - apply set_keeps_absent; [| exact Hd].
    intros E. inversion E. apply Hnin. now left.
Qed.

Lemma fill_absent (k : string) (ks : list string) (d : Dict.t) :
  ~ In k ks -> get (KStr k) d = None ->
  get (KStr k) (fold_left (fun d k => set (KStr k) VNone d) ks d) = None.
Proof.
  revert d. induction ks as [| k0 rest IH]; intros d Hnin Hd; simpl; [exact Hd |].
  apply IH.
  - intros Hin. apply Hnin. now right.
  - apply set_keeps_absent; [| exact Hd].
    intros E. inversion E. apply Hnin. now left.
Qed.

Lemma in_skipn {A} (x : A) (n : nat) (l : list A) : In x (skipn n l) -> In x l.
Proof.
  revert l. induction n as [| n IH]; intros l; simpl; [tauto |].
  destruct l as [| a l]; simpl; [tauto |]. intros H. right. now apply IH.
Qed.

Lemma make_row_absent (fieldnames row : list string) (k : string) :
  ~ In k fieldnames -> get (KStr k) (DictReader.make_row fieldnames row) = None.
Proof.
  intros Hnin. unfold DictReader.make_row, of_pairs.
  pose proof (of_pairs_absent k fieldnames row [] Hnin eq_refl) as Hd.
  destruct (_ <? _)%nat.
  - apply set_keeps_absent; [discriminate | exact Hd].
  - destruct (_ <? _)%nat; [| exact Hd].
    apply fill_absent; [| exact Hd].
    intros Hin. apply Hnin. now apply in_skipn in Hin.
Qed.

Lemma for_rows_without_size (rows : list Dict.t) (err : option exn)
  (acc : list Dict.t) :
  Forall (fun row => get Size row = None) rows ->
  for_rows rows err acc
  = match err with
    | Some e => Raise e
    | None => Ok (acc ++ rows)%list
    end.
Proof.
  intros H. revert acc. induction H as [| row rest Hrow Hrest IH]; intros acc; simpl.
  - destruct err; [reflexivity | now rewrite app_nil_r].
  - unfold size_to_int. rewrite Hrow. simpl. rewrite IH.
    destruct err; [reflexivity |]. now rewrite <- app_assoc.
Qed.

(** Without a column named "Size" nothing is converted and nothing of the
    parser's own can fail: the result is exactly the rows of the DictReader,
    and the only exception possible is an error of the csv reader. *)
Theorem parse_without_size_column (s : string) :
  (forall fieldnames, header s = Some fieldnames -> ~ In "Size" fieldnames) ->
  match _parse_csv_output s with
  | Ok results => results = raw_rows s
  | Raise e => exn_cls e = CsvError
  end.
Proof.
  intros Hhdr. unfold _parse_csv_output, raw_rows.
  destruct (negb (truthy (strip s))); [reflexivity |].
  destruct (_ <? _)%nat; [reflexivity |].
  destruct (DictReader.rows (split LF (strip s))) as [rows err] eqn:Hrows.
  assert (Hall : Forall (fun row => get Size row = None) rows).
  { unfold header in Hhdr. unfold DictReader.rows in Hrows.
    destruct (Csv.reader_records (split LF (strip s))) as [[| fieldnames rest] e];
      simpl in *; inversion Hrows; subst; [constructor |].
    apply Forall_forall. intros d Hd. apply in_map_iff in Hd.
    destruct Hd as [r [Hr _]]. subst d.
    apply make_row_absent. now apply Hhdr. }
  rewrite (for_rows_without_size rows err [] Hall). simpl.
  destruct err as [e |]; [| reflexivity].
  now apply rows_raises in Hrows.
Qed.

Lemma parse_without_size_column_witness :
  _parse_csv_output ("Filename" ++ nl ++ "test.txt" ++ nl ++ "example.py")
  = Ok [[(KStr "Filename", VStr "test.txt")];
        [(KStr "Filename", VStr "example.py")]].
Proof.
  pose proof (parse_without_size_column
                ("Filename" ++ nl ++ "test.txt" ++ nl ++ "example.py")) as H.
  assert (Hhdr : forall fieldnames,
             header ("Filename" ++ nl ++ "test.txt" ++ nl ++ "example.py")
             = Some fieldnames -> ~ In "Size" fieldnames).
  { intros fieldnames E. vm_compute in E. inversion E. subst.
    intros [Hin | []]. discriminate Hin. }
  specialize (H Hhdr).
  destruct (_parse_csv_output ("Filename" ++ nl ++ "test.txt" ++ nl ++ "example.py"))
    as [results | e] eqn:Hparse.
  - rewrite H. reflexivity.
  - vm_compute in Hparse. discriminate Hparse.
Defined.

(** * Further properties of the wrapper methods *)

Lemma parse_error_not_expiry (s : string) (e : exn) :
  _parse_csv_output s = Raise e -> is_class TimeoutExpired e = false.
Proof.
  intros H. apply parse_csv_output_raises in H. destruct e as [cls m].
  simpl in H. destruct H as [H | [H | H]]; subst cls; reflexivity.
Qed.

Lemma search_by_process (w : World) (self : EverythingSearch) (q : QueryConfig) :
  search w self q
  = match process w (search_cmd self q) with
    | Fails _ msg => Raise (Exn RuntimeError ("Error executing search: " ++ msg))
    | Exits _ code out err =>
        if code =? 0 then
          match _parse_csv_output out with
          | Ok rows => Ok rows
          | Raise e =>
              Raise (Exn RuntimeError ("Error executing search: " ++ exn_str e))
          end
        else Raise (Exn RuntimeError
                      ("Error executing search: "
                       ++ "Everything Search failed: " ++ err))
    end.
Proof.
  unfold search. rewrite run_without_timeout.
  destruct (process w (search_cmd self q)) as [t code out err | l msg];
    unfold try_except, Py.bind.
  - cbn [returncode stdout stderr].
    destruct (code =? 0); cbn [negb]; [| reflexivity].
    destruct (_parse_csv_output out) as [rows | e] eqn:Hparse; [reflexivity |].
    now rewrite (parse_error_not_expiry out e Hparse).
  - destruct l; reflexivity.
Qed.



(** With exit code 0 the result of [search] is the parse of the standard
    output and nothing else: the rows when the parser returns, and the
    parser's exception wrapped in a [RuntimeError] when it raises; the
    running time and the standard error play no part. *)
Theorem search_on_exit_zero (w : World) (self : EverythingSearch)
  (q : QueryConfig) (elapsed : Z) (out err : string) :
  process w (search_cmd self q) = Exits elapsed 0 out err ->
  search w self q
  = match _parse_csv_output out with
    | Ok rows => Ok rows
    | Raise e => Raise (Exn RuntimeError ("Error executing search: " ++ exn_str e))
    end.
Proof.
  intros H. rewrite search_by_process, H. reflexivity.
Qed.

Lemma search_on_exit_zero_witness :
  search (host 10 0 csv_ragged "warning") es0 defaults
  = Raise (Exn RuntimeError
             "Error executing search: 'NoneType' object has no attribute 'isdigit'").
Proof.
  rewrite (search_on_exit_zero (host 10 0 csv_ragged "warning") es0 defaults
             10 csv_ragged "warning" eq_refl).
  reflexivity.
Defined.

(** [get_version] fails exactly when the process cannot be run, and then
    with a [RuntimeError] "Error getting version: ..." carrying the cause;
    otherwise it returns the trimmed standard output. *)
Theorem get_version_by_process (w : World) (self : EverythingSearch) :
  get_version w self
  = match process w [es_path self; "-version"] with
    | Fails _ msg => Raise (Exn RuntimeError ("Error getting version: " ++ msg))
    | Exits _ _ out _ => Ok (strip out)
    end.
Proof.
  unfold get_version. rewrite run_without_timeout.
  destruct (process w [es_path self; "-version"]); reflexivity.
Qed.

(** When the executable cannot be started, [search] raises a
    [RuntimeError] "Error executing search: ..." and [export_results] a
    [RuntimeError] "Error exporting results: ...", each carrying the
    message of the operating system. *)
Theorem launch_failure_is_wrapped (w : World) (self : EverythingSearch)
  (q : QueryConfig) (qs output_file format : string) (kwargs : Kwargs)
  (l : launch_error) (msg : string) :
  (process w (search_cmd self q) = Fails l msg ->
   search w self q = Raise (Exn RuntimeError ("Error executing search: " ++ msg)))
  /\ (kw_query kwargs = None ->
      process w (export_cmd self qs output_file format kwargs) = Fails l msg ->
      export_results w self qs output_file format kwargs
      = Raise (Exn RuntimeError ("Error exporting results: " ++ msg))).
Proof.
  split.
  - intros H. rewrite search_by_process, H. reflexivity.
  - intros Hq H. unfold export_results. rewrite Hq. simpl.
    rewrite run_without_timeout, H. reflexivity.
Qed.

Lemma launch_failure_is_wrapped_witness :
  search bare_host es0 defaults
  = Raise (Exn RuntimeError
             "Error executing search: [Errno 2] No such file or directory")
  /\ export_results bare_host es0 "*.txt" "out.csv" "csv" no_kwargs
     = Raise (Exn RuntimeError
                "Error exporting results: [Errno 2] No such file or directory").
Proof.
  split.
  - apply (proj1 (launch_failure_is_wrapped bare_host es0 defaults "*.txt"
                    "out.csv" "csv" no_kwargs NoSuchFile
                    "[Errno 2] No such file or directory")).
    reflexivity.
  - apply (proj2 (launch_failure_is_wrapped bare_host es0 defaults "*.txt"
                    "out.csv" "csv" no_kwargs NoSuchFile
                    "[Errno 2] No such file or directory"));
      reflexivity.
Defined.

(** [export_results] succeeds exactly on exit code 0 and then returns
    nothing; a non-zero exit gives a [RuntimeError] "Error exporting
    results: Export failed: " followed by the standard error. *)
Theorem export_by_exit_code (w : World) (self : EverythingSearch)
  (qs output_file format : string) (kwargs : Kwargs)
  (elapsed code : Z) (out err : string) :
  kw_query kwargs = None ->
  process w (export_cmd self qs output_file format kwargs)
  = Exits elapsed code out err ->
  export_results w self qs output_file format kwargs
  = if code =? 0 then Ok tt
    else Raise (Exn RuntimeError
                  ("Error exporting results: " ++ "Export failed: " ++ err)).
Proof.
  intros Hq H. unfold export_results. rewrite Hq. simpl.
  rewrite run_without_timeout, H. simpl.
  destruct (code =? 0); reflexivity.
Qed.

Lemma export_by_exit_code_witness :
  export_results (host 10 0 "" "") es0 "*.txt" "out.csv" "csv" no_kwargs = Ok tt
  /\ export_results (host 10 1 "" "disk full") es0 "*.txt" "out.csv" "csv" no_kwargs
     = Raise (Exn RuntimeError "Error exporting results: Export failed: disk full").
Proof.
  split.
  - apply (export_by_exit_code (host 10 0 "" "") es0 "*.txt" "out.csv" "csv"
             no_kwargs 10 0 "" ""); reflexivity.
  - apply (export_by_exit_code (host 10 1 "" "disk full") es0 "*.txt" "out.csv"
             "csv" no_kwargs 10 1 "" "disk full"); reflexivity.
Defined.

(** The export command keeps the query in second place in every mode,
    followed by "-export-" and the format name and by the output file; the
    only tokens after these are "-regex", "-case" and "-max-results" with
    its number, so no other search option reaches the executable. *)
Theorem export_cmd_shape (self : EverythingSearch)
  (qs output_file format : string) (kwargs : Kwargs) :
  exists rest,
    export_cmd self qs output_file format kwargs
    = es_path self :: qs :: ("-export-" ++ format) :: output_file :: rest
    /\ Forall (fun t => t = "-regex" \/ t = "-case" \/ t = "-max-results"
                        \/ exists n, t = str_int n) rest.
Proof.
  unfold export_cmd. simpl. eexists. split; [reflexivity |].
  apply Forall_app. split.
  - destruct (kw_flag (kw_regex kwargs)); simpl; [| constructor].
    constructor; [auto | constructor].
  - apply Forall_app. split.
    + destruct (kw_flag (kw_case_sensitive kwargs)); simpl; [| constructor].
      constructor; [auto | constructor].
    + destruct (kw_max_results_given (kw_max_results kwargs)) as [n |];
        [| constructor].
      constructor; [auto |]. constructor; [| constructor].
      right. right. right. now exists n.
Qed.

(** A maximum of 0 results is dropped by [export_results] but passed on by
    [search]: the export command is the same as without the keyword, while
    the search command holds "-max-results" followed by "0". *)
Theorem max_results_zero_export_vs_search (self : EverythingSearch)
  (qs output_file format : string) (kwargs : Kwargs) :
  export_cmd self qs output_file format (kw_with_max_results (Some 0) kwargs)
  = export_cmd self qs output_file format (kw_with_max_results None kwargs)
  /\ followed_by "-max-results" "0"
       (search_cmd self (bind_kwargs (kw_with_max_results (Some 0) kwargs))).
Proof.
  split; [reflexivity |].
  apply (max_results_pair self
           (bind_kwargs (kw_with_max_results (Some 0) kwargs)) 0).
  reflexivity.
Qed.

(** [search_files] always passes files-only, and a keyword [files_only] is
    a second value for it: the call is a type error and no process is run.
    Folders-only passed as a keyword still takes precedence, so
    [search_files] with folders-only enabled asks for folders ("/ad");
    otherwise the file-type step gives "/a-d". *)
Theorem search_files_file_type (w : World) (self : EverythingSearch)
  (qs : string) (kwargs : Kwargs) :
  kw_query kwargs = None ->
  (kw_files_only kwargs = None ->
   exists cfg,
     search_files w self qs kwargs = search w self cfg
     /\ query cfg = qs /\ files_only cfg = true
     /\ file_type_filter cfg
        = if kw_flag (kw_folders_only kwargs) then ["/ad"] else ["/a-d"])
  /\ (forall b, kw_files_only kwargs = Some b ->
      search_files w self qs kwargs = Raise (multiple_values "files_only")).
Proof.
  intros Hq. split.
  - intros Hf. unfold search_files. rewrite Hq, Hf. simpl.
    eexists. split; [reflexivity |]. split; [reflexivity |].
    split; [reflexivity |].
    unfold file_type_filter, kw_flag. simpl.
    destruct (or_default (kw_folders_only kwargs) false); reflexivity.
  - intros b Hf. unfold search_files. rewrite Hq, Hf. reflexivity.
Qed.

Lemma search_files_file_type_witness :
  (exists cfg,
     search_files (host 10 0 "" "") es0 "report"
       (kw_with_folders_only true no_kwargs)
     = search (host 10 0 "" "") es0 cfg
     /\ query cfg = "report" /\ files_only cfg = true
     /\ file_type_filter cfg = ["/ad"])
  /\ search_files (host 10 0 "" "") es0 "report"
       (kw_with_folders_only true no_kwargs) = Ok [].
Proof.
  split.
  - apply (proj1 (search_files_file_type (host 10 0 "" "") es0 "report"
                    (kw_with_folders_only true no_kwargs) eq_refl)).
    reflexivity.
  - vm_compute. reflexivity.
Defined.

(** [search_by_size] and [search_recent] switch their column on only when
    the caller says nothing about it: the size column (resp. the
    modification date) is included by default and left out when the caller
    passes [False]; the query is "size:" resp. "datemodified:last<days>days"
    built around the argument. *)
Theorem convenience_columns_default (w : World) (self : EverythingSearch)
  (size_filter : string) (days : Z) (kwargs : Kwargs) :
  kw_query kwargs = None ->
  (kw_files_only kwargs = None ->
   exists cfg,
     search_by_size w self size_filter kwargs = search w self cfg
     /\ query cfg = "size:" ++ size_filter /\ files_only cfg = true
     /\ include_size cfg = or_default (kw_include_size kwargs) true)
  /\ (exists cfg,
        search_recent w self days kwargs = search w self cfg
        /\ query cfg = "datemodified:last" ++ str_int days ++ "days"
        /\ include_date_modified cfg
           = or_default (kw_include_date_modified kwargs) true).
Proof.
  intros Hq. split.
  - intros Hf. unfold search_by_size.
    unfold setdefault_include_size at 1 2.
    cbn [kw_query kw_files_only]. rewrite Hq, Hf. cbn [is_some].
    eexists. split; [reflexivity |]. repeat split.
  - unfold search_recent. unfold setdefault_include_date_modified at 1.
    cbn [kw_query]. rewrite Hq. cbn [is_some].
    eexists. split; [reflexivity |]. repeat split.
Qed.

Lemma convenience_columns_default_witness :
  exists cfg,
    search_by_size (host 10 0 "" "") es0 ">1MB" (kw_with_include_size false no_kwargs)
    = search (host 10 0 "" "") es0 cfg
    /\ query cfg = "size:>1MB" /\ files_only cfg = true
    /\ include_size cfg = false.
Proof.
  apply (proj1 (convenience_columns_default (host 10 0 "" "") es0 ">1MB" 7
                  (kw_with_include_size false no_kwargs) eq_refl)).
  reflexivity.
Defined.

(** * Further properties of the tool adapters *)

(** The adapters' handle is built at most once: it is either unset or the
    handle for the default path; once set it is kept, and the existence of
    the executable is not looked at again; a failed construction leaves it
    unset, so the next invocation tries again. *)
Theorem handle_is_cached (w : World) (g : Mcp.global) (r : Mcp.request) :
  g = None \/ g = Some default_handle ->
  (snd (Mcp.call_tool w g r) = None
   \/ snd (Mcp.call_tool w g r) = Some default_handle)
  /\ (g = Some default_handle -> snd (Mcp.call_tool w g r) = Some default_handle)
  /\ (g = None ->
      snd (Mcp.call_tool w g r)
      = if path_exists w default_es_path then Some default_handle else None).
Proof.
  intros Hg.
  assert (Hsnd : snd (Mcp.call_tool w g r) = snd (Mcp.get_everything_search w g)).
  { unfold Mcp.call_tool, Mcp.guarded.
    destruct (Mcp.get_everything_search w g); reflexivity. }
  rewrite Hsnd. unfold Mcp.get_everything_search, init.
  destruct Hg as [Hg | Hg]; subst g.
  - destruct (path_exists w default_es_path); simpl.
    + split; [now right |]. split; [discriminate | reflexivity].
    + split; [now left |]. split; [discriminate | reflexivity].
  - simpl. split; [now right |]. split; [reflexivity | discriminate].
Qed.

Lemma handle_is_cached_witness :
  snd (Mcp.call_tool bare_host (Some default_handle) Mcp.GetEverythingVersion)
  = Some default_handle
  /\ snd (Mcp.call_tool bare_host None Mcp.GetEverythingVersion) = None.
Proof.
  split.
  - apply (proj1 (proj2 (handle_is_cached bare_host (Some default_handle)
                           Mcp.GetEverythingVersion (or_intror eq_refl)))).
    reflexivity.
  - apply (proj2 (proj2 (handle_is_cached bare_host None
                           Mcp.GetEverythingVersion (or_introl eq_refl)))).
    reflexivity.
Defined.

Lemma get_result_count_ok (w : World) (es : EverythingSearch) (qs : string) :
  exists n,
    ES.get_result_count w es qs = Ok n
    /\ (forall l msg,
          process w [es_path es; "-get-result-count"; qs] = Fails l msg -> n = 0)
    /\ (forall t code out err,
          process w [es_path es; "-get-result-count"; qs] = Exits t code out err ->
          code <> 0 -> n = 0).
Proof.
  unfold ES.get_result_count. rewrite run_without_timeout.
  destruct (process w [es_path es; "-get-result-count"; qs])
    as [t code out err | l msg]; simpl.
  - destruct (code =? 0) eqn:Hcode.
    + apply Z.eqb_eq in Hcode. subst code.
      destruct (int (strip out)) as [n |]; simpl; eexists;
        (split; [reflexivity |]); split; intros; try discriminate;
        match goal with H : Exits _ _ _ _ = _ |- _ => inversion H; subst end;
        contradiction.
    + simpl. exists 0. split; [reflexivity |]. split; intros; reflexivity.
  - exists 0. split; [reflexivity |]. split; intros; reflexivity.
Qed.

(** Once the handle exists, the result-count tool never answers with an
    error object: it always returns the object with the fields "query" and
    "count", and a process that cannot be run or exits with a non-zero code
    shows up as the count 0. *)
Theorem count_tool_never_reports_error (w : World) (g : Mcp.global)
  (es : EverythingSearch) (qs : string) :
  fst (Mcp.get_everything_search w g) = Ok es ->
  exists n,
    fst (Mcp.call_tool w g (Mcp.GetResultCount qs))
    = Ok (Json.dumps None
            (Json.JObj [("query", Json.JStr qs); ("count", Json.JInt n)]))
    /\ (forall l msg,
          process w [es_path es; "-get-result-count"; qs] = Fails l msg -> n = 0)
    /\ (forall t code out err,
          process w [es_path es; "-get-result-count"; qs] = Exits t code out err ->
          code <> 0 -> n = 0).
Proof.
  intros Hh. destruct (get_result_count_ok w es qs) as [n [Hn [Hfail Hcode]]].
  exists n. split; [| split; assumption].
  unfold Mcp.call_tool. rewrite guarded_returns, Hh.
  unfold Mcp.try_body. rewrite Hn. reflexivity.
Qed.

Lemma count_tool_never_reports_error_witness :
  exists n,
    fst (Mcp.call_tool (host 10 8 "" "IPC error") None (Mcp.GetResultCount "*.txt"))
    = Ok (Json.dumps None
            (Json.JObj [("query", Json.JStr "*.txt"); ("count", Json.JInt n)]))
    /\ (forall l msg,
          process (host 10 8 "" "IPC error")
            [es_path default_handle; "-get-result-count"; "*.txt"] = Fails l msg ->
          n = 0)
    /\ (forall t code out err,
          process (host 10 8 "" "IPC error")
            [es_path default_handle; "-get-result-count"; "*.txt"]
          = Exits t code out err ->
          code <> 0 -> n = 0).
Proof.
  apply (count_tool_never_reports_error (host 10 8 "" "IPC error") None
           default_handle "*.txt").
  reflexivity.
Defined.

Lemma search_tool_config (r : Mcp.request) (es : EverythingSearch) :
  is_search_request r = true ->
  exists cfg,
    (forall w, Mcp.try_body w r es = Mcp.dump_results (search w es cfg))
    /\ include_name cfg = true
    /\ include_full_path cfg = true
    /\ (exists m, max_results cfg = Some m)
    /\ offset cfg = 0.
Proof.
  destruct r; intros H; try discriminate H;
    (eexists; split; [intros w; reflexivity |]);
    (split; [reflexivity |]); (split; [reflexivity |]);
    (split; [eexists; reflexivity | reflexivity]).
Qed.

(** Every search tool runs [search] with a configuration of its own that
    always asks for the name and the full path, always limits the number of
    results and never sets an offset; so its command holds "-name",
    "-full-path-and-name" and "-max-results" with a number. *)
Theorem search_tools_request_paths (r : Mcp.request) (es : EverythingSearch) :
  is_search_request r = true ->
  exists cfg,
    (forall w, Mcp.try_body w r es = Mcp.dump_results (search w es cfg))
    /\ In "-name" (search_cmd es cfg)
    /\ In "-full-path-and-name" (search_cmd es cfg)
    /\ (exists m, followed_by "-max-results" (str_int m) (search_cmd es cfg))
    /\ offset cfg = 0.
Proof.
  intros H. destruct (search_tool_config r es H)
    as [cfg [Hbody [Hname [Hfull [[m Hmax] Hoff]]]]].
  exists cfg. split; [exact Hbody |]. split; [| split; [| split]].
  - unfold search_cmd. rewrite Hname. find_token.
  - unfold search_cmd. rewrite Hfull. find_token.
  - exists m. now apply max_results_pair.
  - exact Hoff.
Qed.

Lemma search_tools_request_paths_witness :
  exists cfg,
    (forall w,
       Mcp.try_body w (Mcp.SearchRecentFiles 7 20 true "date-modified" false) es0
       = Mcp.dump_results (search w es0 cfg))
    /\ In "-name" (search_cmd es0 cfg)
    /\ In "-full-path-and-name" (search_cmd es0 cfg)
    /\ (exists m, followed_by "-max-results" (str_int m) (search_cmd es0 cfg))
    /\ offset cfg = 0.
Proof.
  apply (search_tools_request_paths
           (Mcp.SearchRecentFiles 7 20 true "date-modified" false) es0).
  reflexivity.
Defined.

(** When the executable answers every command with a non-zero exit code,
    each search tool returns the error object whose message is "Error
    executing search: Everything Search failed: " followed by the standard
    error. *)
Theorem search_tools_report_exit_code (w : World) (g : Mcp.global)
  (r : Mcp.request) (es : EverythingSearch) (code : Z) (err : string) :
  is_search_request r = true ->
  fst (Mcp.get_everything_search w g) = Ok es ->
  (forall cmd, exists t out, process w cmd = Exits t code out err) ->
  code <> 0 ->
  fst (Mcp.call_tool w g r)
  = Ok (Json.dumps None
          (Json.error_object
             ("Error executing search: " ++ "Everything Search failed: " ++ err))).
Proof.
  intros Hr Hh Hall Hcode.
  destruct (search_tool_config r es Hr) as [cfg [Hbody _]].
  unfold Mcp.call_tool. rewrite guarded_returns, Hh, Hbody.
  rewrite search_by_process.
  destruct (Hall (search_cmd es cfg)) as [t [out Hproc]]. rewrite Hproc.
  apply Z.eqb_neq in Hcode. rewrite Hcode. reflexivity.
Qed.

Lemma search_tools_report_exit_code_witness :
  fst (Mcp.call_tool (host 10 1 "" "boom") None
         (Mcp.SearchFolders "temp" 20 false false "name" 30000))
  = Ok (Json.dumps None
          (Json.error_object
             "Error executing search: Everything Search failed: boom")).
Proof.
  apply (search_tools_report_exit_code (host 10 1 "" "boom") None
           (Mcp.SearchFolders "temp" 20 false false "name" 30000)
           default_handle 1 "boom").
  - reflexivity.
  - reflexivity.
  - intros cmd. exists 10, "". reflexivity.
  - discriminate.
Defined.

Lemma all_chars_app (p : ascii -> bool) (s t : string) :
  all_chars p (s ++ t) = all_chars p s && all_chars p t.
Proof.
  induction s as [| c r IH]; simpl; [reflexivity |].
  now rewrite IH, andb_assoc.
Qed.

Lemma escape_char_printable (c : ascii) :
  all_chars printable (Json.escape_char c) = true.
Proof.
  destruct c as [[] [] [] [] [] [] [] []]; vm_compute; reflexivity.
Qed.

Lemma escape_printable (s : string) : all_chars printable (Json.escape s) = true.
Proof.
  induction s as [| c r IH]; simpl; [reflexivity |].
  now rewrite all_chars_app, escape_char_printable, IH.
Qed.

(** The error text an adapter returns is one line of printable ASCII,
    whatever the message holds: line breaks, quotes and characters beyond
    ASCII in it are escaped. *)
Theorem error_text_is_printable (msg : string) :
  all_chars printable (Json.dumps None (Json.error_object msg)) = true.
Proof.
  rewrite error_object_text. unfold Json.encode_str.
  rewrite !all_chars_app, !escape_printable. reflexivity.
Qed.

(** * debug_command.py *)

Lemma str_int_not_full_path (n : Z) : str_int n <> "-full-path-and-name".
Proof.
  unfold str_int. destruct (Z.to_int n) as [d | d]; simpl;
    destruct d; discriminate.
Qed.

Lemma debug_cmd_tail (es : EverythingSearch) (arg0 : option string)
  (kwargs : Kwargs) :
  exists pre,
    Debug.debug_cmd es arg0 kwargs = (pre ++ ["-full-path-and-name"])%list.
Proof.
  unfold Debug.debug_cmd. cbv zeta.
  repeat first [ solve [exists []; reflexivity]
               | solve [eexists [_; _]; reflexivity]
               | apply ends_app ].
Qed.

(** The command that [debug_search] prints is never the command that
    the search then runs: the printed list ends with
    "-full-path-and-name", the executed one with the timeout value. *)
Theorem debug_prints_other_command (w : World) (es self : EverythingSearch)
  (arg0 : option string) (kwargs : Kwargs) (q : QueryConfig) :
  fst (Debug.debug_search w es arg0 kwargs) <> search_cmd self q.
Proof.
  unfold Debug.debug_search. simpl. intros E.
  destruct (debug_cmd_tail es arg0 kwargs) as [pre Hpre].
  destruct (search_cmd_tail self q) as [pre' Hpre'].
  rewrite Hpre, Hpre' in E.
  change (pre' ++ ["-csv"; "-timeout"; str_int (timeout q)])%list
    with (pre' ++ ["-csv"; "-timeout"] ++ [str_int (timeout q)])%list in E.
  rewrite app_assoc in E. apply app_inj_tail in E. destruct E as [_ E].
  symmetry in E. now apply str_int_not_full_path in E.
Qed.
